(** * py_metrics: import-graph metrics for a Python source tree

    A shallow embedding of [main.py] and the properties of its registry
    builder, import resolver, graph builder and query views.

    Conventions of the embedding:
    - Python [str] is [string] (a byte string holding the UTF-8 encoding;
      bytewise order on UTF-8 is code-point order, which is Python's order
      on [str]); the separator characters the program cuts on are ASCII.
    - Python [int] is [Z].
    - A [set[str]] is a [gset string]; the importer index, a dict that is
      only ever looked up by key, is a [gmap string (gset string)].
    - The registry, a dict whose iteration order is observable
      ([known_modules.items()]), is an insertion-ordered association list.
    - A [Path] relative to the root is its tuple of parts, which for a
      file found below the root always has a last component.
    - Errors: splitting, slicing, joining and membership tests raise
      nothing on values of these types, so the resolver is a plain total
      function; a file that cannot be read or parsed is an absent node
      list; the one lookup that can raise, [importers[mod]] in [analyze],
      makes [analyze] return an option. *)

From Stdlib Require Import ZArith String Ascii List.
From stdpp Require Import base option list gmap sets strings sorting pretty.

Set Warnings "-clear-no-such-hyp".

Local Open Scope string_scope.
Local Open Scope list_scope.
Local Open Scope Z_scope.

(** ** Python primitives used by the program *)

Module Py.

(** [s.split(sep)] for a one-character separator: never returns the
    empty list ([''.split('.') == ['']]). *)
Fixpoint split (sep : ascii) (s : string) : list string :=
  match s with
  | EmptyString => [EmptyString]
  | String c r =>
      if Ascii.eqb c sep then EmptyString :: split sep r
      else match split sep r with
           | h :: t => String c h :: t
           | [] => [String c EmptyString] (* never taken *)
           end
  end.

(** [sep.join(l)] *)
Fixpoint join (sep : string) (l : list string) : string :=
  match l with
  | [] => EmptyString
  | x :: rest =>
      match rest with
      | [] => x
      | _ :: _ => x +:+ sep +:+ join sep rest
      end
  end.

(** [l[:stop]], with Python's reading of a negative bound. *)
Definition slice_to {A} (l : list A) (stop : Z) : list A :=
  if stop <? 0 then take (length l - Z.to_nat (- stop)) l
  else take (Z.to_nat stop) l.

(** [s[:stop]] on a string. *)
Definition str_slice_to (s : string) (stop : Z) : string :=
  if stop <? 0 then substring 0 (String.length s - Z.to_nat (- stop)) s
  else substring 0 (Z.to_nat stop) s.

(** Truthiness of a [str]: only the empty string is falsy. *)
Definition truthy (s : string) : bool :=
  match s with EmptyString => false | String _ _ => true end.

(** *** Insertion-ordered dict with [str] keys *)

(** [d[k] = v]: an existing key keeps its position, a new key goes last. *)
Fixpoint setitem {V} (d : list (string * V)) (k : string) (v : V)
  : list (string * V) :=
  match d with
  | [] => [(k, v)]
  | (k', v') :: d' =>
      if String.eqb k' k then (k', v) :: d' else (k', v') :: setitem d' k v
  end.

(** [d.get(k)]; [None] is where [d[k]] raises [KeyError]. *)
Fixpoint getitem {V} (d : list (string * V)) (k : string) : option V :=
  match d with
  | [] => None
  | (k', v') :: d' => if String.eqb k' k then Some v' else getitem d' k
  end.

(** [k in d] *)
Definition contains {V} (d : list (string * V)) (k : string) : bool :=
  match getitem d k with Some _ => true | None => false end.

Definition keys {V} (d : list (string * V)) : list string := d.*1.

(** *** Ordering: the [<] of the rich-comparison protocol *)

Class Lt (K : Type) := less : K -> K -> bool.

Class StrictTotal (K : Type) `{Lt K} : Prop := {
  less_irrefl (x : K) : less x x = false;
  less_trans (x y z : K) :
    less x y = true -> less y z = true -> less x z = true;
  less_connex (x y : K) : less x y = true \/ x = y \/ less y x = true
}.

#[global] Instance str_lt : Lt string := String.ltb.
#[global] Instance int_lt : Lt Z := Z.ltb.

(** Tuples compare lexicographically. *)
#[global] Instance pair_lt {A B} `{EqDecision A, Lt A, Lt B} : Lt (A * B) :=
  fun p q => if decide (p.1 = q.1) then less p.2 q.2 else less p.1 q.1.

(** Lists (and so the parts of a path) compare lexicographically: the
    first position where the two differ decides, a proper prefix is
    smaller. *)
Fixpoint list_lt {A} `{EqDecision A, Lt A} (p q : list A) : bool :=
  match p, q with
  | _, [] => false
  | [], _ :: _ => true
  | x :: p', y :: q' => if decide (x = y) then list_lt p' q' else less x y
  end.
#[global] Instance seq_lt {A} `{EqDecision A, Lt A} : Lt (list A) := list_lt.

(** [sorted(l, key=key)]: a stable sort that only asks [<] of the keys.
    Insertion from the right keeps equal keys in their original order. *)
Section sorting.
Context {A K : Type} `{Lt K} (key : A -> K).

Fixpoint insert_by (x : A) (l : list A) : list A :=
  match l with
  | [] => [x]
  | y :: l' =>
      if less (key y) (key x) then y :: insert_by x l' else x :: y :: l'
  end.

Definition sorted_by (l : list A) : list A := foldr insert_by [] l.

(** [a] may stand before [b] in a list sorted by [key]. *)
Definition ordered_by (a b : A) : Prop := less (key b) (key a) = false.
End sorting.

Definition sorted {A} `{Lt A} (l : list A) : list A := sorted_by id l.

End Py.

(** ** The program *)

(** [filepath.relative_to(root)]: the parts of a path below the root. A
    file that [rglob] finds under the root has at least its own name, so
    the last part is kept apart from the directories above it. *)
Record Path := mkPath { parents : list string; fname : string }.

#[export] Instance Path_eq_dec : EqDecision Path.
Proof. solve_decision. Defined.

(** [rel.parts] *)
Definition parts (p : Path) : list string := parents p ++ [fname p].

(** [str(filepath.relative_to(root))] *)
Definition relative_str (p : Path) : string := Py.join "/" (parts p).

(** pathlib orders paths by their parts. *)
#[export] Instance Path_lt : Py.Lt Path :=
  fun p q => Py.less (parts p) (parts q).

(** [collect_python_files]: [tree] is what [root.rglob("*.py")] yields. *)
Definition collect_python_files (tree : list Path) : list Path :=
  Py.sorted tree.

Definition file_to_module_name (filepath : Path) : string :=
  let parts0 := parts filepath in
  if String.eqb (fname filepath) "__init__.py" then
    let parts1 := Py.slice_to parts0 (-1) in
    match parts1 with
    | [] => ""
    | _ :: _ => Py.join "." parts1
    end
  else
    (* parts[-1] = parts[-1][:-3] *)
    let parts1 :=
      <[pred (length parts0) := Py.str_slice_to (fname filepath) (-3)]> parts0 in
    Py.join "." parts1.

Definition compute_depth (filepath : Path) : Z :=
  Z.of_nat (length (parts filepath)) - 1.

Definition build_module_registry (tree : list Path) : list (string * Path) :=
  foldl (fun registry filepath =>
           let name := file_to_module_name filepath in
           if Py.truthy name then Py.setitem registry name filepath
           else registry)
        [] (collect_python_files tree).

Definition resolve_relative_import
    (level : Z) (module : option string) (names : list string)
    (current_module : string) (known_modules : list (string * Path))
  : gset string :=
  let parts := Py.split "." current_module in
  if Z.of_nat (length parts) <? level then ∅
  else
    let anchor_parts := Py.slice_to parts (- level) in
    match module with
    | Some module =>
        let base_parts := anchor_parts ++ Py.split "." module in
        let base := Py.join "." base_parts in
        foldl (fun (resolved : gset string) name =>
                 let submod :=
                   if negb (String.eqb name "*")
                   then Some (base +:+ "." +:+ name) else None in
                 let otherwise :=
                   if Py.contains known_modules base
                   then resolved ∪ {[ base ]} else resolved in
                 match submod with
                 | Some s =>
                     if Py.truthy s && Py.contains known_modules s
                     then resolved ∪ {[ s ]} else otherwise
                 | None => otherwise
                 end)
              ∅ names
    | None =>
        foldl (fun (resolved : gset string) name =>
                 let candidate := Py.join "." (anchor_parts ++ [name]) in
                 if Py.contains known_modules candidate
                 then resolved ∪ {[ candidate ]} else resolved)
              ∅ names
    end.

(** [range(n, 0, -1)] *)
Definition range_down (n : nat) : list Z := Z.of_nat <$> reverse (seq 1 n).

(** The inner loop of [_handle_ast_import]: the first candidate prefix
    that is a known module, [None] when the loop ends without [break]. *)
Fixpoint first_known
    (known_modules : list (string * Path)) (name_parts : list string)
    (indices : list Z) : option string :=
  match indices with
  | [] => None
  | i :: rest =>
      let candidate := Py.join "." (Py.slice_to name_parts i) in
      if Py.contains known_modules candidate then Some candidate
      else first_known known_modules name_parts rest
  end.

(** [names] are the [alias.name] of [node.names]. *)
Definition _handle_ast_import
    (names : list string) (known_modules : list (string * Path))
    (imported : gset string) : gset string :=
  foldl (fun (imported : gset string) alias_name =>
           let name_parts := Py.split "." alias_name in
           let best :=
             first_known known_modules name_parts
                         (range_down (length name_parts)) in
           match best with
           | Some b => if Py.truthy b then imported ∪ {[ b ]} else imported
           | None => imported
           end)
        imported names.

Definition _handle_ast_import_from
    (node_level : option Z) (node_module : option string)
    (node_names : list string) (current_module : string)
    (known_modules : list (string * Path)) (imported : gset string)
  : gset string :=
  (* level = node.level or 0 *)
  let level := match node_level with
               | Some l => if l =? 0 then 0 else l
               | None => 0
               end in
  let module := node_module in
  let names := node_names in
  if 0 <? level then
    let resolved :=
      resolve_relative_import level module names current_module known_modules in
    imported ∪ resolved
  else
    match module with
    | None => imported
    | Some module =>
        foldl (fun (imported : gset string) name =>
                 let submod := module +:+ "." +:+ name in
                 if Py.contains known_modules submod
                 then imported ∪ {[ submod ]}
                 else if Py.contains known_modules module
                      then imported ∪ {[ module ]} else imported)
              imported names
    end.

(** The nodes [ast.walk] visits, as far as the program tells them apart. *)
Inductive AstNode :=
| Import (names : list string)
| ImportFrom (level : option Z) (module : option string) (names : list string)
| OtherNode.

(** [source filepath] stands for reading and parsing the file and walking
    its tree: [None] is a [SyntaxError] or an [OSError], which the program
    answers with a warning and an empty set. *)
Definition parse_file_imports
    (source : Path -> option (list AstNode))
    (filepath : Path) (known_modules : list (string * Path)) : gset string :=
  match source filepath with
  | None => ∅
  | Some nodes =>
      let current_module := file_to_module_name filepath in
      foldl (fun (imported : gset string) node =>
               match node with
               | Import names => _handle_ast_import names known_modules imported
               | ImportFrom level module names =>
                   _handle_ast_import_from level module names
                                           current_module known_modules imported
               | OtherNode => imported
               end)
            ∅ nodes
  end.

(** One entry of the list [analyze] returns. *)
Record Row := mkRow {
  r_module : string;
  r_rel_path : string;
  r_depth : Z;
  r_import_count : Z;
  r_importers : list string;
  r_score : Z
}.

(** The body of [for mod in imported] in [analyze] ([mod] is reserved
    here, so the loop variable is [target]). *)
Definition add_importer
    (current_module rel_path : string) (target : string)
    (importers : gmap string (gset string)) : gmap string (gset string) :=
  if String.eqb target current_module then importers
  else match importers !! target with
       | Some s => <[target := s ∪ {[ rel_path ]}]> importers
       | None => importers
       end.

(** The first loop of [analyze]. *)
Definition build_importers
    (source : Path -> option (list AstNode))
    (known_modules : list (string * Path)) (files : list Path)
    (importers : gmap string (gset string)) : gmap string (gset string) :=
  foldl (fun importers filepath =>
           let current_module := file_to_module_name filepath in
           if negb (Py.truthy current_module) then importers
           else
             let rel_path := relative_str filepath in
             let imported := parse_file_imports source filepath known_modules in
             set_fold (add_importer current_module rel_path) importers imported)
        importers files.

(** The second loop of [analyze]; [None] is the [KeyError] of
    [importers[mod]]. *)
Definition make_row
    (importers : gmap string (gset string)) (entry : string * Path)
  : option Row :=
  let target := entry.1 in
  let filepath := entry.2 in
  let rel_path := relative_str filepath in
  let depth := compute_depth filepath in
  s ← importers !! target;
  let import_count := Z.of_nat (size s) in
  let score := depth * import_count in
  Some {| r_module := target; r_rel_path := rel_path; r_depth := depth;
          r_import_count := import_count;
          r_importers := Py.sorted (elements s); r_score := score |}.

(** The importer index as [analyze] has it after its first loop. *)
Definition importer_index
    (source : Path -> option (list AstNode)) (tree : list Path)
  : gmap string (gset string) :=
  let known_modules := build_module_registry tree in
  let importers : gmap string (gset string) :=
    foldl (fun m target => <[target := ∅]> m) ∅ (Py.keys known_modules) in
  build_importers source known_modules (collect_python_files tree) importers.

Definition analyze
    (source : Path -> option (list AstNode)) (tree : list Path)
  : option (list Row) :=
  let known_modules := build_module_registry tree in
  let importers := importer_index source tree in
  mapM (make_row importers) known_modules.

(** The rows [cmd_dead] selects and orders, before truncation. *)
Definition dead_rows (results : list Row) : list Row :=
  let dead := filter (fun r => r_import_count r = 0) results in
  Py.sorted_by (fun r => (- r_depth r, r_module r)) dead.

(** What [cmd_dead] hands to the formatter. *)
Definition cmd_dead (top : Z) (results : list Row) : list Row :=
  Py.slice_to (dead_rows results) top.

(** The rows [cmd_cold] selects and orders, before truncation. *)
Definition cold_rows (max_imports min_depth : Z) (results : list Row)
  : list Row :=
  let cold :=
    filter (fun r => (1 <= r_import_count r <= max_imports)
                     /\ min_depth <= r_depth r) results in
  Py.sorted_by (fun r => (r_import_count r, (- r_depth r, r_module r))) cold.

Definition cmd_cold (max_imports min_depth top : Z) (results : list Row)
  : list Row :=
  Py.slice_to (cold_rows max_imports min_depth results) top.

(** argparse default of [--max-imports] *)
Definition default_max_imports : Z := 3.

(** The rows [cmd_hot] selects and orders, before truncation. *)
Definition hot_rows (min_imports min_depth : Z) (results : list Row)
  : list Row :=
  let filtered :=
    filter (fun r => min_imports <= r_import_count r
                     /\ min_depth <= r_depth r) results in
  Py.sorted_by
    (fun r => (- r_score r, (- r_import_count r, r_module r))) filtered.

(** What [cmd_hot] hands to the formatter. *)
Definition cmd_hot (min_imports min_depth top : Z) (results : list Row)
  : list Row :=
  Py.slice_to (hot_rows min_imports min_depth results) top.

(** *** Presentation

    What the formatters print, as the list of the printed lines. Widths
    are counted as Python counts them, in code points: of a UTF-8 text
    these are the bytes that are not continuation bytes. *)

(** A byte of the form [10xxxxxx]. *)
Definition is_continuation (a : ascii) : bool :=
  match a with Ascii _ _ _ _ _ _ b6 b7 => b7 && negb b6 end.

(** [len(s)] *)
Fixpoint str_len (s : string) : nat :=
  match s with
  | EmptyString => 0
  | String a r => ((if is_continuation a then 0 else 1) + str_len r)%nat
  end.

(** [str(n)] for an [int] *)
Definition str_of_int (n : Z) : string := pretty n.

(** [c * n] for a one-character string [c] *)
Fixpoint repeat_char (c : ascii) (n : nat) : string :=
  match n with
  | O => EmptyString
  | S k => String c (repeat_char c k)
  end.

(** [f"{s:>{w}}"]: [s] flushed right in [w] columns ([w] is positive at
    every use). *)
Definition rjust (s : string) (w : nat) : string :=
  repeat_char " " (w - str_len s) +:+ s.

(** [f"{s:<{w}}"]: [s] flushed left in [w] columns. *)
Definition ljust (s : string) (w : nat) : string :=
  s +:+ repeat_char " " (w - str_len s).

(** [max(len(label), max(len(cell(r)) for r in results))]; the inner
    [max] is only reached with [results] not empty. *)
Definition column_width (label : string) (cell : Row -> string)
    (results : list Row) : nat :=
  Nat.max (str_len label) (max_list (str_len ∘ cell <$> results)).

(** The lines under a row of the hot and cold tables:
    [if show_importers and r["importers"]: ...]. *)
Definition importer_lines (show_importers : bool) (indent : nat) (r : Row)
  : list string :=
  if show_importers && bool_decide (r_importers r <> []) then
    [rjust "" indent +:+ "<- imported by:"]
    ++ ((fun imp => rjust "" (indent + 3) +:+ imp) <$> r_importers r)
    ++ [""]
  else [].

Definition format_hot_results (results : list Row) (show_importers : bool)
  : list string :=
  match results with
  | [] => ["No modules matched the criteria."]
  | _ :: _ =>
      let score_w :=
        column_width "Score" (fun r => str_of_int (r_score r)) results in
      let depth_w :=
        column_width "Depth" (fun r => str_of_int (r_depth r)) results in
      let imports_w :=
        column_width "Imports" (fun r => str_of_int (r_import_count r))
                     results in
      let module_w := column_width "Module" r_module results in
      let file_w := column_width "File" r_rel_path results in
      let header :=
        rjust "Score" score_w +:+ "  " +:+ rjust "Depth" depth_w +:+ "  "
        +:+ rjust "Imports" imports_w +:+ "  "
        +:+ ljust "Module" module_w +:+ "  " +:+ ljust "File" file_w in
      let sep := repeat_char "-" (str_len header) in
      [header; sep]
      ++ mjoin
           ((fun r =>
               let row :=
                 rjust (str_of_int (r_score r)) score_w +:+ "  "
                 +:+ rjust (str_of_int (r_depth r)) depth_w +:+ "  "
                 +:+ rjust (str_of_int (r_import_count r)) imports_w +:+ "  "
                 +:+ ljust (r_module r) module_w +:+ "  "
                 +:+ ljust (r_rel_path r) file_w in
               let indent := (score_w + 2 + depth_w + 2 + imports_w + 2)%nat in
               row :: importer_lines show_importers indent r) <$> results)
  end.

Definition format_dead_results (results : list Row) : list string :=
  match results with
  | [] => ["No dead modules found."]
  | _ :: _ =>
      let depth_w :=
        column_width "Depth" (fun r => str_of_int (r_depth r)) results in
      let module_w := column_width "Module" r_module results in
      let file_w := column_width "File" r_rel_path results in
      let header :=
        rjust "Depth" depth_w +:+ "  " +:+ ljust "Module" module_w +:+ "  "
        +:+ ljust "File" file_w in
      let sep := repeat_char "-" (str_len header) in
      [header; sep]
      ++ ((fun r =>
             rjust (str_of_int (r_depth r)) depth_w +:+ "  "
             +:+ ljust (r_module r) module_w +:+ "  "
             +:+ ljust (r_rel_path r) file_w) <$> results)
  end.

Definition format_cold_results (results : list Row) (show_importers : bool)
  : list string :=
  match results with
  | [] => ["No modules matched the criteria."]
  | _ :: _ =>
      let depth_w :=
        column_width "Depth" (fun r => str_of_int (r_depth r)) results in
      let imports_w :=
        column_width "Imports" (fun r => str_of_int (r_import_count r))
                     results in
      let module_w := column_width "Module" r_module results in
      let file_w := column_width "File" r_rel_path results in
      let header :=
        rjust "Depth" depth_w +:+ "  " +:+ rjust "Imports" imports_w +:+ "  "
        +:+ ljust "Module" module_w +:+ "  " +:+ ljust "File" file_w in
      let sep := repeat_char "-" (str_len header) in
      [header; sep]
      ++ mjoin
           ((fun r =>
               let row :=
                 rjust (str_of_int (r_depth r)) depth_w +:+ "  "
                 +:+ rjust (str_of_int (r_import_count r)) imports_w +:+ "  "
                 +:+ ljust (r_module r) module_w +:+ "  "
                 +:+ ljust (r_rel_path r) file_w in
               let indent := (depth_w + 2 + imports_w + 2)%nat in
               row :: importer_lines show_importers indent r) <$> results)
  end.

(** ** Vocabulary of the statements *)

(** The order of the hot view: higher score first, then more importers,
    then by module name. *)
Definition hot_order (r1 r2 : Row) : Prop :=
  r_score r2 < r_score r1
  \/ (r_score r1 = r_score r2
      /\ (r_import_count r2 < r_import_count r1
          \/ (r_import_count r1 = r_import_count r2
              /\ String.ltb (r_module r2) (r_module r1) = false))).

(** The order of the cold view: fewer importers first, then deeper, then
    by module name. *)
Definition cold_order (r1 r2 : Row) : Prop :=
  r_import_count r1 < r_import_count r2
  \/ (r_import_count r1 = r_import_count r2
      /\ (r_depth r2 < r_depth r1
          \/ (r_depth r1 = r_depth r2
              /\ String.ltb (r_module r2) (r_module r1) = false))).

(** [shown] is [all[:top]]: a prefix of [all], of [top] rows when [top] is
    not negative and [all] has that many, of all but the last [-top] rows
    when [top] is negative. *)
Definition truncated_to {A} (top : Z) (all shown : list A) : Prop :=
  shown = take (length shown) all
  /\ length shown
     = if top <? 0 then (length all - Z.to_nat (- top))%nat
       else Nat.min (Z.to_nat top) (length all).

(** What one node of a file adds to the file's dependency set. *)
Definition node_imports
    (known_modules : list (string * Path)) (current_module : string)
    (node : AstNode) : gset string :=
  match node with
  | Import names => _handle_ast_import names known_modules ∅
  | ImportFrom level module names =>
      _handle_ast_import_from level module names current_module
                              known_modules ∅
  | OtherNode => ∅
  end.

(** [x] is the longest prefix of [name_parts], of at most [n] segments,
    that is a known module. *)
Definition longest_known_prefix
    (known_modules : list (string * Path)) (name_parts : list string)
    (n : nat) (x : string) : Prop :=
  exists i : nat,
    (1 <= i <= n)%nat
    /\ x = Py.join "." (take i name_parts)
    /\ Py.contains known_modules x = true
    /\ forall j : nat,
         (i < j <= n)%nat ->
         Py.contains known_modules (Py.join "." (take j name_parts)) = false.

(** One turn of the loop of [build_module_registry]. *)
Definition register (registry : list (string * Path)) (filepath : Path)
  : list (string * Path) :=
  let name := file_to_module_name filepath in
  if Py.truthy name then Py.setitem registry name filepath else registry.

(** The character [c] occurs in [s]. *)
Fixpoint mentions (c : ascii) (s : string) : bool :=
  match s with
  | EmptyString => false
  | String a r => Ascii.eqb a c || mentions c r
  end.

(** No part of a path of the tree holds the path separator, as is the case
    for every path the file system hands out. *)
Definition valid_tree (tree : list Path) : Prop :=
  Forall (fun f => Forall (fun part => mentions "/" part = false) (parts f))
         tree.

(** The package initializer that lies directly under the root. *)
Definition root_initializer : Path := mkPath [] "__init__.py".

(** The files that count as importers of [m], by their root-relative
    paths: files that have a module name of their own, other than [m],
    and whose resolved dependency set holds [m]. *)
Definition importing_files
    (source : Path -> option (list AstNode)) (tree : list Path) (m : string)
  : gset string :=
  let known_modules := build_module_registry tree in
  list_to_set
    (relative_str <$>
       filter (fun f => file_to_module_name f <> ""
                        /\ file_to_module_name f <> m
                        /\ m ∈ parse_file_imports source f known_modules)
              tree).

(** The same count read off the words "distinct other files whose resolved
    dependency set contains [m]": every file but the one registered for
    [m]. *)
Definition other_files_importing
    (source : Path -> option (list AstNode)) (tree : list Path) (m : string)
  : gset string :=
  let known_modules := build_module_registry tree in
  list_to_set
    (relative_str <$>
       filter (fun f => Py.getitem known_modules m <> Some f
                        /\ m ∈ parse_file_imports source f known_modules)
              tree).

(** The order of the dead view: deeper first, then by module name. *)
Definition dead_order (r1 r2 : Row) : Prop :=
  r_depth r2 < r_depth r1
  \/ (r_depth r1 = r_depth r2
      /\ String.ltb (r_module r2) (r_module r1) = false).

(** ** Scenarios

    Small trees, and what their files import, on which the statements
    below are tried. *)

Module Scenario.

(** A package with two sibling modules. *)
Definition pkg_tree : list Path :=
  [mkPath ["pkg"] "__init__.py"; mkPath ["pkg"] "a.py"; mkPath ["pkg"] "b.py"].

(** The same package with a third file whose name is a star. *)
Definition star_tree : list Path :=
  [mkPath ["pkg"] "__init__.py"; mkPath ["pkg"] "a.py"; mkPath ["pkg"] "*.py"].

(** [top.py] beside [sub/deep.py]: [sub.deep] is a module, [sub] and
    [sub.deep.mod] are not. *)
Definition deep_tree : list Path :=
  [mkPath [] "top.py"; mkPath ["sub"] "deep.py"].

(** [base.py] and a file that imports from it. *)
Definition base_tree : list Path :=
  [mkPath [] "base.py"; mkPath [] "user.py"].

(** A root package: [__init__.py] beside [a.py] and [b.py]; the
    initializer and [b.py] both hold [import a]. *)
Definition rooted_tree : list Path :=
  [mkPath [] "__init__.py"; mkPath [] "a.py"; mkPath [] "b.py"].

Definition rooted_source (f : Path) : option (list AstNode) :=
  if decide (f = mkPath [] "a.py") then Some [OtherNode]
  else Some [Import ["a"]].

(** The same files with an initializer that imports nothing. *)
Definition rooted_source_silent (f : Path) : option (list AstNode) :=
  if decide (f = root_initializer) then Some [] else rooted_source f.

(** [pkg/__init__.py] and [pkg.py] both map to the module [pkg]; the
    initializer holds [import pkg]. *)
Definition collision_tree : list Path :=
  [mkPath ["pkg"] "__init__.py"; mkPath [] "pkg.py"].

Definition collision_source (f : Path) : option (list AstNode) :=
  if decide (f = mkPath ["pkg"] "__init__.py") then Some [Import ["pkg"]]
  else Some [].


(** Three modules nobody imports, at depths 1, 3 and 0, and one that is
    imported twice. *)
Definition view_rows : list Row :=
  [ mkRow "a.shallow" "a/shallow.py" 1 0 [] 0;
    mkRow "a.b.c.deep" "a/b/c/deep.py" 3 0 [] 0;
    mkRow "util" "util.py" 0 2 ["a/shallow.py"; "main.py"] 0;
    mkRow "main" "main.py" 0 0 [] 0 ].

End Scenario.

(** ** Facts about the Python primitives *)

Section slices.
Context {A : Type}.
Implicit Types l : list A.

Lemma slice_to_nonneg l (n : nat) : Py.slice_to l (Z.of_nat n) = take n l.
Proof.
  unfold Py.slice_to. destruct (Z.ltb_spec (Z.of_nat n) 0); [lia|].
  by rewrite Nat2Z.id.
Qed.

Lemma slice_to_neg l (k : Z) :
  0 < k -> Py.slice_to l (- k) = take (length l - Z.to_nat k) l.
Proof.
  intros Hk. unfold Py.slice_to. destruct (Z.ltb_spec (- k) 0); [|lia].
  by rewrite Z.opp_involutive.
Qed.

Lemma slice_to_is_take l (stop : Z) : exists n, Py.slice_to l stop = take n l.
Proof. unfold Py.slice_to. destruct (stop <? 0); eauto. Qed.

Lemma slice_to_drop_last l x : Py.slice_to (l ++ [x]) (-1) = l.
Proof.
  rewrite (slice_to_neg _ 1) by lia. rewrite length_app. simpl.
  replace (length l + 1 - Z.to_nat 1)%nat with (length l) by lia.
  by rewrite take_app_length.
Qed.
End slices.

Lemma substring_prefix (s t : string) :
  substring 0 (String.length s) (s +:+ t) = s.
Proof.
  induction s as [|c s IH]; simpl.
  - by destruct t.
  - by rewrite IH.
Qed.

Lemma string_length_app (s t : string) :
  String.length (s +:+ t) = (String.length s + String.length t)%nat.
Proof. induction s as [|c s IH]; simpl; [done|]. by rewrite IH. Qed.

Lemma str_slice_to_strip_py (stem : string) :
  Py.str_slice_to (stem +:+ ".py") (-3) = stem.
Proof.
  unfold Py.str_slice_to. simpl. rewrite string_length_app. simpl.
  replace (String.length stem + 3 - Z.to_nat (- (-3)))%nat
    with (String.length stem) by lia.
  apply substring_prefix.
Qed.

Lemma truthy_iff (s : string) : Py.truthy s = true <-> s <> "".
Proof. destruct s; simpl; split; congruence. Qed.

Lemma truthy_false_iff (s : string) : Py.truthy s = false <-> s = "".
Proof. destruct s; simpl; split; congruence. Qed.

Section dict_facts.
Context {V : Type}.
Implicit Types d : list (string * V).

Lemma getitem_setitem d k v k' :
  Py.getitem (Py.setitem d k v) k'
  = if decide (k = k') then Some v else Py.getitem d k'.
Proof.
  induction d as [|[k0 v0] d IH]; simpl.
  - destruct (String.eqb_spec k k'); case_decide; congruence.
  - destruct (String.eqb_spec k0 k) as [->|Hne]; simpl.
    + destruct (String.eqb_spec k k'); case_decide; congruence.
    + destruct (String.eqb_spec k0 k'); [|done].
      case_decide; congruence.
Qed.

Lemma elem_of_keys d k : k ∈ Py.keys d <-> is_Some (Py.getitem d k).
Proof.
  unfold Py.keys. induction d as [|[k0 v0] d IH]; simpl.
  - rewrite elem_of_nil. split; [done|]. by intros [? ?].
  - rewrite elem_of_cons, IH. destruct (String.eqb_spec k0 k); [split; eauto|].
    split; [intros [?|?]; [congruence|done] | eauto].
Qed.

Lemma contains_keys d k : Py.contains d k = true <-> k ∈ Py.keys d.
Proof.
  rewrite elem_of_keys. unfold Py.contains.
  destruct (Py.getitem d k); split; eauto; try done.
Qed.

Lemma keys_setitem_elem d k v k' :
  k' ∈ Py.keys (Py.setitem d k v) <-> k' = k \/ k' ∈ Py.keys d.
Proof.
  rewrite !elem_of_keys, getitem_setitem. case_decide; subst.
  - split; eauto.
  - split; [eauto|]. by intros [?|?].
Qed.

Lemma NoDup_keys_setitem d k v :
  NoDup (Py.keys d) -> NoDup (Py.keys (Py.setitem d k v)).
Proof.
  unfold Py.keys. induction d as [|[k0 v0] d IH]; simpl; intros Hnd.
  - apply NoDup_singleton.
  - apply NoDup_cons in Hnd as [Hk0 Hnd].
    destruct (String.eqb_spec k0 k) as [->|Hne]; simpl.
    + by apply NoDup_cons.
    + apply NoDup_cons. split; [|by apply IH].
      intros Hin. apply (keys_setitem_elem d k v k0) in Hin as [?|?]; done.
Qed.

Lemma getitem_elem_of d k v : Py.getitem d k = Some v -> (k, v) ∈ d.
Proof.
  induction d as [|[k0 v0] d IH]; simpl; [done|].
  destruct (String.eqb_spec k0 k) as [->|Hne].
  - intros [= ->]. apply elem_of_cons; by left.
  - intros ?. apply elem_of_cons; right; by apply IH.
Qed.

Lemma elem_of_getitem d k v :
  NoDup (Py.keys d) -> (k, v) ∈ d -> Py.getitem d k = Some v.
Proof.
  unfold Py.keys. induction d as [|[k0 v0] d IH]; simpl; intros Hnd Hin.
  - by apply elem_of_nil in Hin.
  - apply NoDup_cons in Hnd as [Hk0 Hnd].
    apply elem_of_cons in Hin as [[= -> ->]|Hin].
    + by rewrite String.eqb_refl.
    + destruct (String.eqb_spec k0 k) as [->|Hne]; [|by apply IH].
      exfalso. apply Hk0. apply list_elem_of_fmap. by exists (k, v).
Qed.
End dict_facts.

(** ** Orders and sorting *)

Section strict_total.
Context {K : Type} `{Py.StrictTotal K}.

Lemma less_asym (x y : K) : Py.less x y = true -> Py.less y x = false.
Proof.
  intros Hxy. destruct (Py.less y x) eqn:Hyx; [|done].
  pose proof (Py.less_trans _ _ _ Hxy Hyx) as Hxx.
  by rewrite Py.less_irrefl in Hxx.
Qed.

Lemma not_less_trans (x y z : K) :
  Py.less y x = false -> Py.less z y = false -> Py.less z x = false.
Proof.
  intros Hyx Hzy. destruct (Py.less z x) eqn:Hzx; [|done].
  destruct (Py.less_connex x y) as [Hxy|[->|Hxy]].
  - pose proof (Py.less_trans _ _ _ Hzx Hxy). congruence.
  - congruence.
  - congruence.
Qed.
End strict_total.

#[global] Instance int_strict_total : Py.StrictTotal Z.
Proof.
  split; unfold Py.less, Py.int_lt.
  - intros x. apply Z.ltb_irrefl.
  - intros x y z ?%Z.ltb_lt ?%Z.ltb_lt. apply Z.ltb_lt. lia.
  - intros x y. rewrite !Z.ltb_lt. lia.
Qed.

Lemma string_ltb_compare (s t : string) :
  String.ltb s t = true <-> String.compare s t = Lt.
Proof. unfold String.ltb. destruct (String.compare s t); split; congruence. Qed.

#[global] Instance str_strict_total : Py.StrictTotal string.
Proof.
  split; unfold Py.less, Py.str_lt.
  - intros x. unfold String.ltb.
    pose proof (String.compare_antisym x x) as Ha.
    destruct (String.compare x x); simpl in Ha; congruence.
  - intros x y z Hxy Hyz.
    assert (String.le x z) as Hle.
    { transitivity y; unfold String.le, String.leb.
      - apply string_ltb_compare in Hxy. by rewrite Hxy.
      - apply string_ltb_compare in Hyz. by rewrite Hyz. }
    unfold String.le, String.leb in Hle. apply string_ltb_compare.
    destruct (String.compare x z) eqn:Hxz; [|done|done].
    apply String.compare_eq_iff in Hxz as ->.
    apply string_ltb_compare in Hxy, Hyz.
    rewrite String.compare_antisym, Hyz in Hxy. done.
  - intros x y. rewrite !string_ltb_compare.
    rewrite (String.compare_antisym y x).
    destruct (String.compare x y) eqn:Hxy; simpl; auto.
    right; left. by apply String.compare_eq_iff.
Qed.

#[global] Instance pair_strict_total {A B : Type}
  `{EqDecision A, Py.StrictTotal A, Py.StrictTotal B} : Py.StrictTotal (A * B).
Proof.
  split; unfold Py.less, Py.pair_lt.
  - intros [a b]. simpl. case_decide; [apply Py.less_irrefl|done].
  - intros [a1 b1] [a2 b2] [a3 b3]; simpl.
    repeat case_decide; subst; try done; intros H12 H23.
    + by apply (Py.less_trans _ b2).
    + pose proof (less_asym _ _ H12). congruence.
    + by apply (Py.less_trans _ a2).
  - intros [a1 b1] [a2 b2]; simpl. repeat case_decide; subst; try done.
    + destruct (Py.less_connex b1 b2) as [?|[->|?]]; auto.
    + destruct (Py.less_connex a1 a2) as [?|[->|?]]; auto.
Qed.

#[global] Instance seq_strict_total {A : Type}
  `{EqDecision A, Py.StrictTotal A} : Py.StrictTotal (list A).
Proof.
  split; unfold Py.less, Py.seq_lt.
  - intros x. induction x as [|a x IH]; simpl; [done|].
    case_decide; [done|congruence].
  - intros x. induction x as [|a x IH]; intros [|b y] [|c z]; simpl;
      try done.
    repeat case_decide; subst; try done; intros H12 H23.
    + by apply (IH y).
    + pose proof (less_asym _ _ H12). congruence.
    + by apply (Py.less_trans _ b).
  - intros x. induction x as [|a x IH]; intros [|b y]; simpl; auto.
    repeat case_decide; subst; try done.
    + destruct (IH y) as [?|[->|?]]; auto.
    + destruct (Py.less_connex a b) as [?|[->|?]]; auto.
Qed.

Lemma parts_inj (p q : Path) : parts p = parts q -> p = q.
Proof.
  destruct p as [d f], q as [d' f']; unfold parts; simpl.
  intros [-> [= ->]]%app_inj_tail. done.
Qed.

#[global] Instance Path_strict_total : Py.StrictTotal Path.
Proof.
  split; unfold Py.less, Path_lt.
  - intros x. apply Py.less_irrefl.
  - intros x y z. apply Py.less_trans.
  - intros x y. destruct (Py.less_connex (parts x) (parts y)) as [?|[?|?]];
      auto using parts_inj.
Qed.

Section sort_facts.
Context {A K : Type} `{Py.StrictTotal K} (key : A -> K).
Implicit Types l : list A.

Lemma insert_by_Permutation x l : Py.insert_by key x l ≡ₚ x :: l.
Proof.
  induction l as [|y l IH]; simpl; [done|].
  destruct (Py.less (key y) (key x)); [|done].
  rewrite IH. apply Permutation_swap.
Qed.

Lemma sorted_by_Permutation l : Py.sorted_by key l ≡ₚ l.
Proof.
  induction l as [|x l IH]; simpl; [done|].
  by rewrite insert_by_Permutation, IH.
Qed.

Lemma elem_of_sorted_by l x : x ∈ Py.sorted_by key l <-> x ∈ l.
Proof. by rewrite sorted_by_Permutation. Qed.

Lemma insert_by_StronglySorted x l :
  StronglySorted (Py.ordered_by key) l ->
  StronglySorted (Py.ordered_by key) (Py.insert_by key x l).
Proof.
  induction 1 as [|y l Hl IH Hy]; simpl.
  - repeat constructor.
  - destruct (Py.less (key y) (key x)) eqn:Hyx.
    + constructor; [done|]. rewrite insert_by_Permutation.
      constructor; [|done]. unfold Py.ordered_by. by apply less_asym.
    + constructor; [by constructor|]. constructor; [done|].
      eapply Forall_impl; [exact Hy|]. intros z Hz. unfold Py.ordered_by in *.
      by apply (not_less_trans _ (key y)).
Qed.

Lemma sorted_by_StronglySorted l :
  StronglySorted (Py.ordered_by key) (Py.sorted_by key l).
Proof.
  induction l as [|x l IH]; simpl; [constructor|].
  by apply insert_by_StronglySorted.
Qed.

(** In a sorted list, an element with a strictly smaller key stands at a
    smaller index. *)
Lemma StronglySorted_ordered_lookup l (i j : nat) a b :
  StronglySorted (Py.ordered_by key) l ->
  l !! i = Some a -> l !! j = Some b ->
  Py.less (key a) (key b) = true -> (i < j)%nat.
Proof.
  intros Hs. revert i j. induction Hs as [|y l Hl IH Hy]; intros i j Hi Hj Hab.
  - done.
  - destruct i as [|i], j as [|j]; simpl in *; simplify_eq.
    + by rewrite Py.less_irrefl in Hab.
    + lia.
    + exfalso. rewrite Forall_forall in Hy.
      apply list_elem_of_lookup_2 in Hi. apply Hy in Hi.
      unfold Py.ordered_by in Hi. congruence.
    + pose proof (IH i j Hi Hj Hab). lia.
Qed.
End sort_facts.

(** ** The import resolver *)

Lemma truthy_dotted (base name : string) :
  Py.truthy (base +:+ "." +:+ name) = true.
Proof. by destruct base. Qed.

Lemma dotted_inj (base n1 n2 : string) :
  base +:+ "." +:+ n1 = base +:+ "." +:+ n2 -> n1 = n2.
Proof. intros H%(inj (String.append base)). by injection H. Qed.

Lemma dotted_longer (base name : string) : base +:+ "." +:+ name <> base.
Proof.
  intros H%(f_equal String.length). rewrite string_length_app in H.
  simpl in H. lia.
Qed.

(** A loop that only ever adds to its accumulator. *)
Lemma elem_of_foldl_union {A : Type}
    (f : gset string -> A -> gset string) (F : A -> gset string) :
  (forall acc a, f acc a = acc ∪ F a) ->
  forall (l : list A) (acc : gset string) (x : string),
    x ∈ foldl f acc l <-> x ∈ acc \/ exists a, a ∈ l /\ x ∈ F a.
Proof.
  intros Hf l. induction l as [|a l IH]; intros acc x; cbn [foldl].
  - split; [auto|]. intros [?|(a & Ha & _)]; [done|]. by apply elem_of_nil in Ha.
  - rewrite IH, Hf, elem_of_union. setoid_rewrite elem_of_cons. naive_solver.
Qed.

Section resolver.
Context (known_modules : list (string * Path)).
Abbreviation known x := (Py.contains known_modules x = true).

(** The loop of the relative form with a base module. *)
Lemma relative_base_loop (base : string) (names : list string)
    (resolved : gset string) (x : string) :
  x ∈ foldl (fun (resolved : gset string) name =>
               let submod :=
                 if negb (String.eqb name "*")
                 then Some (base +:+ "." +:+ name) else None in
               let otherwise :=
                 if Py.contains known_modules base
                 then resolved ∪ {[ base ]} else resolved in
               match submod with
               | Some s =>
                   if Py.truthy s && Py.contains known_modules s
                   then resolved ∪ {[ s ]} else otherwise
               | None => otherwise
               end) resolved names
  <-> x ∈ resolved \/
      exists n, n ∈ names /\ known x /\
        ((n <> "*" /\ x = base +:+ "." +:+ n) \/
         ((n = "*" \/ Py.contains known_modules (base +:+ "." +:+ n) = false)
          /\ x = base)).
Proof.
  rewrite (elem_of_foldl_union _
    (fun n => if negb (String.eqb n "*")
                 && Py.contains known_modules (base +:+ "." +:+ n)
              then {[ base +:+ "." +:+ n ]}
              else if Py.contains known_modules base then {[ base ]} else ∅)).
  - apply or_iff_compat_l. f_equiv. intros n. apply and_iff_compat_l.
    destruct (String.eqb_spec n "*") as [->|Hn]; simpl;
      [|destruct (Py.contains known_modules (base +:+ "." +:+ n)) eqn:Hs];
      try destruct (Py.contains known_modules base) eqn:Hb;
      rewrite ?elem_of_singleton, ?elem_of_empty; naive_solver congruence.
  - intros acc n. cbv zeta.
    destruct (String.eqb n "*"); simpl; rewrite ?truthy_dotted; simpl;
      repeat (match goal with |- context [Py.contains ?d ?k] =>
                destruct (Py.contains d k) end; simpl);
      set_solver.
Qed.

(** The loop of the relative form without a base module. *)
Lemma relative_bare_loop (anchor_parts : list string) (names : list string)
    (resolved : gset string) (x : string) :
  x ∈ foldl (fun (resolved : gset string) name =>
               let candidate := Py.join "." (anchor_parts ++ [name]) in
               if Py.contains known_modules candidate
               then resolved ∪ {[ candidate ]} else resolved) resolved names
  <-> x ∈ resolved \/
      exists n, n ∈ names /\ x = Py.join "." (anchor_parts ++ [n]) /\ known x.
Proof.
  rewrite (elem_of_foldl_union _
    (fun n => if Py.contains known_modules (Py.join "." (anchor_parts ++ [n]))
              then {[ Py.join "." (anchor_parts ++ [n]) ]} else ∅)).
  - apply or_iff_compat_l. f_equiv. intros n. apply and_iff_compat_l.
    destruct (Py.contains known_modules (Py.join "." (anchor_parts ++ [n])))
      eqn:Hc; rewrite ?elem_of_singleton, ?elem_of_empty; naive_solver congruence.
  - intros acc n. cbv zeta.
    destruct (Py.contains known_modules _); set_solver.
Qed.

(** The loop of the absolute form. *)
Lemma absolute_loop (module : string) (names : list string)
    (imported : gset string) (x : string) :
  x ∈ foldl (fun (imported : gset string) name =>
               let submod := module +:+ "." +:+ name in
               if Py.contains known_modules submod
               then imported ∪ {[ submod ]}
               else if Py.contains known_modules module
                    then imported ∪ {[ module ]} else imported) imported names
  <-> x ∈ imported \/
      exists n, n ∈ names /\ known x /\
        (x = module +:+ "." +:+ n \/
         (Py.contains known_modules (module +:+ "." +:+ n) = false
          /\ x = module)).
Proof.
  rewrite (elem_of_foldl_union _
    (fun n => if Py.contains known_modules (module +:+ "." +:+ n)
              then {[ module +:+ "." +:+ n ]}
              else if Py.contains known_modules module
                   then {[ module ]} else ∅)).
  - apply or_iff_compat_l. f_equiv. intros n. apply and_iff_compat_l.
    destruct (Py.contains known_modules (module +:+ "." +:+ n)) eqn:Hs;
      [|destruct (Py.contains known_modules module) eqn:Hb];
      rewrite ?elem_of_singleton, ?elem_of_empty; naive_solver congruence.
  - intros acc n. cbv zeta.
    repeat (match goal with |- context [Py.contains ?d ?k] =>
              destruct (Py.contains d k) end; simpl);
      set_solver.
Qed.
End resolver.

Section resolver_results.
Context (known_modules : list (string * Path)).

(** What the relative form returns, with the anchor written as a prefix of
    the importing module's segments. *)
Lemma resolve_relative_elem (level : Z) (module : option string)
    (names : list string) (current_module : string) (x : string) :
  1 <= level ->
  level <= Z.of_nat (length (Py.split "." current_module)) ->
  let segments := Py.split "." current_module in
  let anchor := take (length segments - Z.to_nat level) segments in
  x ∈ resolve_relative_import level module names current_module known_modules
  <-> exists n, n ∈ names /\ Py.contains known_modules x = true /\
        match module with
        | Some m =>
            let basepath := Py.join "." (anchor ++ Py.split "." m) in
            (n <> "*" /\ x = basepath +:+ "." +:+ n) \/
            ((n = "*" \/
              Py.contains known_modules (basepath +:+ "." +:+ n) = false)
             /\ x = basepath)
        | None => x = Py.join "." (anchor ++ [n])
        end.
Proof.
  intros Hlevel Hfits segments anchor. unfold resolve_relative_import.
  destruct (Z.ltb_spec (Z.of_nat (length (Py.split "." current_module))) level);
    [lia|].
  rewrite slice_to_neg by lia. fold segments. fold anchor.
  destruct module as [m|].
  - rewrite relative_base_loop. rewrite elem_of_empty. naive_solver.
  - rewrite relative_bare_loop. rewrite elem_of_empty. naive_solver.
Qed.

Lemma resolve_relative_too_deep (level : Z) (module : option string)
    (names : list string) (current_module : string) :
  Z.of_nat (length (Py.split "." current_module)) < level ->
  resolve_relative_import level module names current_module known_modules = ∅.
Proof.
  intros Hdeep. unfold resolve_relative_import.
  by destruct (Z.ltb_spec (Z.of_nat (length (Py.split "." current_module)))
                 level); [|lia].
Qed.

Lemma resolve_relative_known (level : Z) (module : option string)
    (names : list string) (current_module : string) (x : string) :
  x ∈ resolve_relative_import level module names current_module known_modules
  -> Py.contains known_modules x = true.
Proof.
  unfold resolve_relative_import.
  destruct (_ <? level); [by rewrite elem_of_empty|].
  destruct module as [m|].
  - rewrite relative_base_loop, elem_of_empty. naive_solver.
  - rewrite relative_bare_loop, elem_of_empty. naive_solver.
Qed.

Lemma resolve_relative_no_names (level : Z) (module : option string)
    (current_module : string) :
  resolve_relative_import level module [] current_module known_modules = ∅.
Proof.
  unfold resolve_relative_import.
  destruct (_ <? level); [done|]. by destruct module.
Qed.

(** [node.level or 0] is positive exactly when the stored level is. *)
Lemma handle_from_relative (l : Z) (module : option string)
    (names : list string) (current_module : string) (imported : gset string) :
  0 < l ->
  _handle_ast_import_from (Some l) module names current_module
                          known_modules imported
  = imported ∪ resolve_relative_import l module names current_module
                                       known_modules.
Proof.
  intros Hl. unfold _handle_ast_import_from.
  destruct (Z.eqb_spec l 0); [lia|].
  by destruct (Z.ltb_spec 0 l); [|lia].
Qed.

Lemma handle_from_absolute (node_level : option Z) (module : option string)
    (names : list string) (current_module : string) (imported : gset string)
    (x : string) :
  (forall l, node_level = Some l -> l <= 0) ->
  x ∈ _handle_ast_import_from node_level module names current_module
                              known_modules imported
  <-> x ∈ imported \/
      match module with
      | None => False
      | Some base =>
          exists n, n ∈ names /\ Py.contains known_modules x = true /\
            (x = base +:+ "." +:+ n \/
             (Py.contains known_modules (base +:+ "." +:+ n) = false
              /\ x = base))
      end.
Proof.
  intros Hlevel. unfold _handle_ast_import_from.
  assert ((0 <? match node_level with
                | Some l => if l =? 0 then 0 else l
                | None => 0
                end) = false) as ->.
  { destruct node_level as [l|]; [|done]. specialize (Hlevel l eq_refl).
    destruct (Z.eqb_spec l 0); [done|]. apply Z.ltb_ge. lia. }
  destruct module as [base|]; [|tauto]. apply absolute_loop.
Qed.
End resolver_results.

(** ** Relative imports *)

(** C2: for a from-style import of level [L >= 1] resolved against a module
    of [S] segments, [S < L] yields the empty set; otherwise the anchor is
    the first [S - L] segments, and every resolved module is a known module
    formed from it: from anchor + base segments when a base is present (the
    base path with the imported name, or the base path itself), from
    anchor + the imported name when it is not. *)
Theorem relative_import_anchor
    (level : Z) (module : option string) (names : list string)
    (current_module : string) (known_modules : list (string * Path)) :
  1 <= level ->
  let segments := Py.split "." current_module in
  let anchor := take (length segments - Z.to_nat level) segments in
  (Z.of_nat (length segments) < level ->
   resolve_relative_import level module names current_module known_modules = ∅)
  /\ (level <= Z.of_nat (length segments) ->
      forall x,
        x ∈ resolve_relative_import level module names current_module
                                    known_modules
        <-> exists n, n ∈ names /\ Py.contains known_modules x = true /\
              match module with
              | Some m =>
                  let basepath := Py.join "." (anchor ++ Py.split "." m) in
                  (n <> "*" /\ x = basepath +:+ "." +:+ n) \/
                  ((n = "*" \/
                    Py.contains known_modules (basepath +:+ "." +:+ n) = false)
                   /\ x = basepath)
              | None => x = Py.join "." (anchor ++ [n])
              end).
Proof.
  intros Hlevel segments anchor. split.
  - apply resolve_relative_too_deep.
  - intros Hfits x. by apply resolve_relative_elem.
Qed.

(** In [pkg/b.py], [from . import a] resolves to [pkg.a]. *)
Lemma relative_import_anchor_witness :
  "pkg.a" ∈ resolve_relative_import 1 None ["a"] "pkg.b"
              (build_module_registry Scenario.pkg_tree).
Proof.
  pose proof (relative_import_anchor 1 None ["a"] "pkg.b"
                (build_module_registry Scenario.pkg_tree)) as H.
  destruct H as [_ H]; [lia|].
  apply H; [vm_compute; congruence|].
  exists "a". split; [apply list_elem_of_here|]. split; reflexivity.
Defined.

(** C3, as the code has it: with a base module present and a valid anchor,
    a wildcard name is never tried as [basepath.*], but it does fall back
    to the base path: what the wildcard adds to the resolved set is the
    base path itself when that is a known module, and nothing otherwise.
    The names that are not wildcards resolve as they do without it. *)
Theorem wildcard_falls_back_to_base
    (level : Z) (m : string) (names : list string)
    (current_module : string) (known_modules : list (string * Path)) :
  1 <= level ->
  level <= Z.of_nat (length (Py.split "." current_module)) ->
  let segments := Py.split "." current_module in
  let anchor := take (length segments - Z.to_nat level) segments in
  let basepath := Py.join "." (anchor ++ Py.split "." m) in
  resolve_relative_import level (Some m) names current_module known_modules
  = resolve_relative_import level (Some m)
      (filter (fun n => n <> "*") names) current_module known_modules
    ∪ (if decide ("*" ∈ names /\ Py.contains known_modules basepath = true)
       then {[ basepath ]} else ∅)
  /\ basepath +:+ ".*"
     ∉ resolve_relative_import level (Some m) names current_module
                               known_modules.
Proof.
  intros Hlevel Hfits segments anchor basepath. split.
  - apply set_eq. intros x. rewrite elem_of_union.
    rewrite !(resolve_relative_elem known_modules level (Some m)) by done.
    fold segments anchor basepath. cbv zeta.
    setoid_rewrite list_elem_of_filter. split.
    + intros (n & Hn & Hx & [[Hne ->]|[Hwild ->]]).
      * left. exists n. auto 7.
      * destruct (decide (n = "*")) as [->|Hne].
        -- right. rewrite decide_True by done. by apply elem_of_singleton.
        -- left. exists n. destruct Hwild as [?|?]; [done|]. auto 8.
    + intros [(n & [Hne Hn] & Hx & Hcase)|Hx].
      * exists n. auto.
      * case_decide as Hd; [|by apply elem_of_empty in Hx].
        apply elem_of_singleton in Hx as ->. destruct Hd as [Hstar Hb].
        exists "*". auto 7.
  - rewrite (resolve_relative_elem known_modules level (Some m)) by done.
    fold segments anchor basepath. cbv zeta.
    intros (n & Hn & Hx & [[Hne Heq]|[_ Heq]]).
    + apply (dotted_inj basepath "*" n) in Heq. congruence.
    + by apply (dotted_longer basepath "*") in Heq.
Qed.

(** In [pkg/a.py], [from .b import *] resolves to [pkg.b]. *)
Lemma wildcard_falls_back_to_base_witness :
  resolve_relative_import 1 (Some "b") ["*"] "pkg.a"
    (build_module_registry Scenario.pkg_tree)
  = resolve_relative_import 1 (Some "b") [] "pkg.a"
      (build_module_registry Scenario.pkg_tree)
    ∪ {[ "pkg.b" ]}.
Proof.
  pose proof (wildcard_falls_back_to_base 1 "b" ["*"] "pkg.a"
                (build_module_registry Scenario.pkg_tree)) as H.
  destruct H as [H _]; [lia|vm_compute; congruence|].
  exact H.
Defined.

(** C3 as stated fails: the wildcard of [from .b import *] adds the base
    path [pkg.b] to a resolved set that is empty without it. *)
Lemma wildcard_contributes_base :
  resolve_relative_import 1 (Some "b") ["*"] "pkg.a"
    (build_module_registry Scenario.pkg_tree) = {[ "pkg.b" ]}
  /\ resolve_relative_import 1 (Some "b") [] "pkg.a"
       (build_module_registry Scenario.pkg_tree) = ∅.
Proof. split; vm_compute; reflexivity. Qed.

(** ** Absolute from-style imports *)

(** C5: at level 0 an import without a base module resolves nothing; with
    a base, each imported name resolves to [base.name] when that is a known
    module, else to [base] when that is known, else to nothing. So when
    [base] is known and no [base.name] is, any non-empty list of names
    (wildcards or not) resolves to exactly [{base}]. *)
Theorem absolute_from_import
    (node_level : option Z) (module : option string) (names : list string)
    (current_module : string) (known_modules : list (string * Path))
    (imported : gset string) :
  node_level = None \/ node_level = Some 0 ->
  (forall x,
     x ∈ _handle_ast_import_from node_level module names current_module
                                 known_modules imported
     <-> x ∈ imported \/
         match module with
         | None => False
         | Some base =>
             exists n, n ∈ names /\ Py.contains known_modules x = true /\
               (x = base +:+ "." +:+ n \/
                (Py.contains known_modules (base +:+ "." +:+ n) = false
                 /\ x = base))
         end)
  /\ (forall base,
        module = Some base ->
        Py.contains known_modules base = true ->
        names <> [] ->
        (forall n, n ∈ names ->
                   Py.contains known_modules (base +:+ "." +:+ n) = false) ->
        _handle_ast_import_from node_level module names current_module
                                known_modules ∅ = {[ base ]}).
Proof.
  intros Hlevel.
  assert (forall l, node_level = Some l -> l <= 0) as Hnonpos.
  { intros l Hl. destruct Hlevel; simplify_eq. lia. }
  split.
  - intros x. by apply handle_from_absolute.
  - intros base -> Hbase Hnames Hnone. apply set_eq. intros x.
    rewrite handle_from_absolute by done.
    rewrite elem_of_empty, elem_of_singleton. split.
    + intros [[]|(n & Hn & Hx & [->|[_ ->]])]; [|done].
      rewrite Hnone in Hx by done. done.
    + intros ->. right. destruct names as [|n names]; [done|].
      exists n. split; [apply list_elem_of_here|].
      split; [done|]. right. split; [|done]. apply Hnone, list_elem_of_here.
Qed.

(** In [user.py], [from base import *, helper] resolves to [base] alone. *)
Lemma absolute_from_import_witness :
  _handle_ast_import_from (Some 0) (Some "base") ["*"; "helper"] "user"
    (build_module_registry Scenario.base_tree) ∅ = {[ "base" ]}.
Proof.
  pose proof (absolute_from_import (Some 0) (Some "base") ["*"; "helper"]
                "user" (build_module_registry Scenario.base_tree) ∅) as H.
  destruct H as [_ H]; [by right|].
  apply H; [reflexivity|reflexivity|congruence|].
  intros n Hn.
  apply elem_of_cons in Hn as [->|Hn]; [reflexivity|].
  apply elem_of_cons in Hn as [->|Hn]; [reflexivity|].
  by apply elem_of_nil in Hn.
Defined.

(** ** Totality of the resolver *)

(** C8, as the code has it: both resolution paths are total functions that
    return known-module names only, whatever the level, base, names,
    importing module and registry; an empty name list resolves to the
    empty set; a wildcard-only import with no base resolves to the empty
    set on the absolute path, and on the relative path to the empty set
    unless the anchor followed by [*] is itself the name of a known
    module, in which case that module is returned. *)
Theorem resolver_total
    (known_modules : list (string * Path)) (current_module : string)
    (names : list string) :
  (forall level module x,
     x ∈ resolve_relative_import level module names current_module
                                 known_modules ->
     x ∈ Py.keys known_modules)
  /\ (forall node_level module imported x,
        x ∈ _handle_ast_import_from node_level module names current_module
                                    known_modules imported ->
        x ∈ imported \/ x ∈ Py.keys known_modules)
  /\ (forall level module,
        resolve_relative_import level module [] current_module known_modules
        = ∅)
  /\ (forall node_level module imported,
        _handle_ast_import_from node_level module [] current_module
                                known_modules imported = imported)
  /\ (forall node_level imported,
        (forall l, node_level = Some l -> l <= 0) ->
        _handle_ast_import_from node_level None names current_module
                                known_modules imported = imported)
  /\ (forall level,
        1 <= level ->
        Forall (fun n => n = "*") names ->
        let segments := Py.split "." current_module in
        let anchor := take (length segments - Z.to_nat level) segments in
        let star := Py.join "." (anchor ++ ["*"]) in
        resolve_relative_import level None names current_module known_modules
        = if decide (names <> [] /\ level <= Z.of_nat (length segments)
                     /\ Py.contains known_modules star = true)
          then {[ star ]} else ∅).
Proof.
  split_and!.
  - intros level module x Hx. apply contains_keys.
    by apply resolve_relative_known in Hx.
  - intros node_level module imported x.
    destruct node_level as [l|]; [destruct (decide (0 < l))|].
    + rewrite handle_from_relative by done. rewrite elem_of_union.
      intros [?|Hx]; [by left|right]. apply contains_keys.
      by apply resolve_relative_known in Hx.
    + rewrite handle_from_absolute by (intros ? [= <-]; lia).
      intros [?|Hx]; [by left|right]. apply contains_keys.
      destruct module; naive_solver.
    + rewrite handle_from_absolute by done.
      intros [?|Hx]; [by left|right]. apply contains_keys.
      destruct module; naive_solver.
  - intros. apply resolve_relative_no_names.
  - intros node_level module imported. apply set_eq. intros x.
    destruct node_level as [l|]; [destruct (decide (0 < l))|].
    + rewrite handle_from_relative by done.
      rewrite resolve_relative_no_names. set_solver.
    + rewrite handle_from_absolute by (intros ? [= <-]; lia).
      destruct module; [|tauto]. setoid_rewrite elem_of_nil. naive_solver.
    + rewrite handle_from_absolute by done.
      destruct module; [|tauto]. setoid_rewrite elem_of_nil. naive_solver.
  - intros node_level imported Hl. apply set_eq. intros x.
    rewrite handle_from_absolute by done. tauto.
  - intros level Hlevel Hstars segments anchor star.
    destruct (decide (level <= Z.of_nat (length segments))) as [Hfits|Hdeep].
    + apply set_eq. intros x.
      rewrite (resolve_relative_elem known_modules level None) by done.
      fold segments anchor. rewrite Forall_forall in Hstars.
      case_decide as Hd.
      * destruct Hd as (Hne & _ & Hk). rewrite elem_of_singleton. split.
        -- intros (n & Hn & _ & ->). by rewrite (Hstars n Hn).
        -- intros ->. destruct names as [|n names]; [done|].
           exists n. split; [apply list_elem_of_here|]. split; [done|].
           by rewrite (Hstars n (list_elem_of_here _ _)).
      * rewrite elem_of_empty. split; [|done].
        intros (n & Hn & Hk & ->). apply Hd. split_and!; [|done|].
        -- intros ->. by apply elem_of_nil in Hn.
        -- by rewrite (Hstars n Hn) in Hk.
    + rewrite resolve_relative_too_deep by (fold segments; lia).
      rewrite decide_False; [done|]. tauto.
Qed.

(** C8 as stated fails: with a file [pkg/*.py] in the tree, the
    wildcard-only [from . import *] of [pkg/a.py] resolves to the module
    named [pkg.*] and not to the empty set. *)
Lemma wildcard_without_base_resolves :
  _handle_ast_import_from (Some 1) None ["*"] "pkg.a"
    (build_module_registry Scenario.star_tree) ∅ = {[ "pkg.*" ]}.
Proof. vm_compute. reflexivity. Qed.

(** ** Module names and the registry *)

Lemma module_name_of_initializer (dirs : list string) :
  file_to_module_name (mkPath dirs "__init__.py") = Py.join "." dirs.
Proof.
  unfold file_to_module_name, parts. cbn [fname parents].
  rewrite String.eqb_refl, slice_to_drop_last. by destruct dirs.
Qed.

Lemma module_name_of_file (dirs : list string) (name : string) :
  name <> "__init__.py" ->
  file_to_module_name (mkPath dirs name)
  = Py.join "." (dirs ++ [Py.str_slice_to name (-3)]).
Proof.
  intros Hname. unfold file_to_module_name, parts. cbn [fname parents].
  apply String.eqb_neq in Hname. rewrite Hname. f_equal.
  rewrite length_app. simpl. replace (pred (length dirs + 1)) with
    (length dirs + 0)%nat by lia.
  by rewrite insert_app_r.
Qed.

Lemma module_name_root_initializer : file_to_module_name root_initializer = "".
Proof. reflexivity. Qed.

Section registry.
Implicit Types files : list Path.
Implicit Types registry : list (string * Path).

Lemma getitem_register registry f k :
  Py.getitem (register registry f) k
  = if decide (file_to_module_name f <> "" /\ file_to_module_name f = k)
    then Some f else Py.getitem registry k.
Proof.
  unfold register. destruct (Py.truthy (file_to_module_name f)) eqn:Ht.
  - apply truthy_iff in Ht. rewrite getitem_setitem.
    repeat case_decide; naive_solver.
  - apply truthy_false_iff in Ht. rewrite decide_False; [done|]. tauto.
Qed.

Lemma register_NoDup registry f :
  NoDup (Py.keys registry) -> NoDup (Py.keys (register registry f)).
Proof.
  unfold register. destruct (Py.truthy _); [|done].
  apply NoDup_keys_setitem.
Qed.

Lemma registered_NoDup files : NoDup (Py.keys (foldl register [] files)).
Proof.
  induction files as [|f files IH] using rev_ind; [constructor|].
  rewrite foldl_snoc. by apply register_NoDup.
Qed.

(** The file registered under a name is the last one of the enumeration
    that maps to it. *)
Lemma registered_last files k f :
  Py.getitem (foldl register [] files) k = Some f
  <-> k <> "" /\ exists before after,
        files = before ++ f :: after
        /\ file_to_module_name f = k
        /\ forall g, g ∈ after -> file_to_module_name g <> k.
Proof.
  induction files as [|h files IH] using rev_ind.
  - simpl. split; [done|]. intros (_ & before & after & Heq & _).
    by destruct before.
  - rewrite foldl_snoc, getitem_register. case_decide as Hh.
    + destruct Hh as [Hne <-]. split.
      * intros [= <-]. split; [done|]. exists files, [].
        split_and!; [done..|]. intros g Hg. by apply elem_of_nil in Hg.
      * intros (_ & before & after & Heq & Hk & Hafter).
        destruct after as [|a after _] using rev_ind.
        -- apply app_inj_tail in Heq as [_ ->]. done.
        -- rewrite app_comm_cons, app_assoc in Heq.
           apply app_inj_tail in Heq as [_ ->].
           exfalso. apply (Hafter a); [set_solver|done].
    + rewrite IH. split.
      * intros (Hk0 & before & after & -> & Hk & Hafter). split; [done|].
        exists before, (after ++ [h]). rewrite <- app_assoc. split; [done|].
        split; [done|]. intros g [Hg|Hg%list_elem_of_singleton]%elem_of_app;
          [by apply Hafter|]. subst g.
        intros Heq. apply Hh. split; [|done]. by rewrite Heq.
      * intros (Hk0 & before & after & Heq & Hk & Hafter). split; [done|].
        destruct after as [|a after _] using rev_ind.
        -- apply app_inj_tail in Heq as [_ ->]. exfalso. apply Hh.
           split; [|done]. by rewrite Hk.
        -- rewrite app_comm_cons, app_assoc in Heq.
           apply app_inj_tail in Heq as [-> ->].
           exists before, after. split_and!; [done..|].
           intros g Hg. apply Hafter. set_solver.
Qed.
End registry.

Lemma filter_none {A} (P : A -> Prop) `{forall x, Decision (P x)}
    (l : list A) :
  (forall x, x ∈ l -> ~ P x) -> filter P l = [].
Proof.
  induction l as [|a l IH]; intros Hl; [done|].
  rewrite filter_cons_False by (apply Hl; set_solver).
  apply IH. intros x Hx. apply Hl. set_solver.
Qed.

Lemma build_module_registry_fold (tree : list Path) :
  build_module_registry tree = foldl register [] (collect_python_files tree).
Proof. reflexivity. Qed.

Lemma elem_of_collect (tree : list Path) (f : Path) :
  f ∈ collect_python_files tree <-> f ∈ tree.
Proof. apply elem_of_sorted_by. Qed.

Lemma collect_sorted (tree : list Path) :
  StronglySorted (fun f g => Py.less g f = false) (collect_python_files tree).
Proof. apply (sorted_by_StronglySorted (K:=Path) id). Qed.

Lemma registry_entry (tree : list Path) (k : string) (f : Path) :
  (k, f) ∈ build_module_registry tree
  <-> Py.getitem (build_module_registry tree) k = Some f.
Proof.
  split; [|apply getitem_elem_of].
  apply elem_of_getitem. rewrite build_module_registry_fold.
  apply registered_NoDup.
Qed.

Lemma registry_getitem (tree : list Path) (k : string) (f : Path) :
  Py.getitem (build_module_registry tree) k = Some f ->
  k <> "" /\ f ∈ tree /\ file_to_module_name f = k.
Proof.
  rewrite build_module_registry_fold, registered_last.
  intros (Hk & before & after & Heq & Hname & _). split_and!; [done| |done].
  apply elem_of_collect. rewrite Heq. set_solver.
Qed.

Lemma registry_no_empty_name (tree : list Path) :
  Py.contains (build_module_registry tree) "" = false.
Proof.
  unfold Py.contains.
  destruct (Py.getitem (build_module_registry tree) "") as [f|] eqn:Hf; [|done].
  by apply registry_getitem in Hf as [? _].
Qed.

Lemma registry_covers (tree : list Path) (g : Path) :
  g ∈ tree -> file_to_module_name g <> "" ->
  is_Some (Py.getitem (build_module_registry tree) (file_to_module_name g)).
Proof.
  intros Hg Hname. rewrite build_module_registry_fold.
  apply elem_of_collect in Hg. revert Hg.
  induction (collect_python_files tree) as [|h files IH] using rev_ind.
  - by intros ?%elem_of_nil.
  - rewrite foldl_snoc, getitem_register. case_decide; [eauto|].
    intros [Hg|Hg%list_elem_of_singleton]%elem_of_app; [by apply IH|].
    subst h. tauto.
Qed.

(** C9: when several files map to one module name, the registry holds that
    name once, with one path: the file that comes last among them in the
    sorted enumeration, which is the one no other of them sorts after. A
    name some file maps to is always registered, unless it is empty. *)
Theorem registry_last_file_wins (tree : list Path) (name : string) :
  NoDup (Py.keys (build_module_registry tree))
  /\ (forall f f',
        (name, f) ∈ build_module_registry tree ->
        (name, f') ∈ build_module_registry tree -> f = f')
  /\ (forall f,
        Py.getitem (build_module_registry tree) name = Some f ->
        f ∈ tree
        /\ file_to_module_name f = name
        /\ last (filter (fun g => file_to_module_name g = name)
                        (collect_python_files tree)) = Some f
        /\ forall g, g ∈ tree -> file_to_module_name g = name ->
                     Py.less f g = false)
  /\ (forall g,
        g ∈ tree -> file_to_module_name g = name -> name <> "" ->
        is_Some (Py.getitem (build_module_registry tree) name)).
Proof.
  split_and!.
  - rewrite build_module_registry_fold. apply registered_NoDup.
  - intros f f' Hf Hf'. apply registry_entry in Hf, Hf'. congruence.
  - intros f Hf. pose proof (registry_getitem _ _ _ Hf) as (_ & Hin & Hname).
    split; [done|]. split; [done|].
    rewrite build_module_registry_fold in Hf.
    apply registered_last in Hf as (_ & before & after & Heq & _ & Hafter).
    pose proof (collect_sorted tree) as Hsorted. rewrite Heq in Hsorted.
    split.
    + rewrite Heq, filter_app, filter_cons_True by done.
      assert (filter (fun g => file_to_module_name g = name) after = [])
        as ->.
      { apply filter_none. intros g Hg. by apply Hafter. }
      by rewrite last_snoc.
    + intros g Hg Hgname. apply elem_of_collect in Hg. rewrite Heq in Hg.
      apply elem_of_app in Hg as [Hg|Hg].
      * apply (StronglySorted_app_1_elem_of _ _ _ g f) in Hsorted;
          [done|done|apply list_elem_of_here].
      * apply elem_of_cons in Hg as [->|Hg]; [apply Py.less_irrefl|].
        by apply Hafter in Hg.
  - intros g Hg <- Hname. by apply registry_covers.
Qed.

(** [pkg/__init__.py] sorts before [pkg.py], so [pkg] is [pkg.py]. *)
Example registry_collision :
  build_module_registry Scenario.collision_tree = [("pkg", mkPath [] "pkg.py")].
Proof. reflexivity. Qed.

(** ** Direct imports *)

Lemma range_down_S (n : nat) :
  range_down (S n) = Z.of_nat (S n) :: range_down n.
Proof.
  unfold range_down. rewrite seq_S, reverse_snoc. simpl.
  by replace (1 + n)%nat with (S n) by lia.
Qed.

Section direct.
Context (known_modules : list (string * Path)).
Implicit Types name_parts : list string.

Lemma first_known_range name_parts (n : nat) :
  match first_known known_modules name_parts (range_down n) with
  | Some x => longest_known_prefix known_modules name_parts n x
  | None =>
      forall j : nat,
        (1 <= j <= n)%nat ->
        Py.contains known_modules (Py.join "." (take j name_parts)) = false
  end.
Proof.
  induction n as [|n IH].
  - simpl. intros j Hj. lia.
  - rewrite range_down_S. cbn [first_known]. rewrite slice_to_nonneg.
    destruct (Py.contains known_modules (Py.join "." (take (S n) name_parts)))
      eqn:Hc.
    + exists (S n). split_and!; [lia|lia|done|done|]. intros j Hj. lia.
    + destruct (first_known known_modules name_parts (range_down n)) as [x|].
      * destruct IH as (i & Hi & -> & Hk & Hlater).
        exists i. split_and!; [lia|lia|done|done|].
        intros j Hj. destruct (decide (j = S n)) as [->|]; [done|].
        apply Hlater. lia.
      * intros j Hj. destruct (decide (j = S n)) as [->|]; [done|].
        apply IH. lia.
Qed.

Lemma longest_known_prefix_unique name_parts (n : nat) (x y : string) :
  longest_known_prefix known_modules name_parts n x ->
  longest_known_prefix known_modules name_parts n y -> x = y.
Proof.
  intros (i & Hi & -> & Hki & Hli) (j & Hj & -> & Hkj & Hlj).
  destruct (Nat.lt_trichotomy i j) as [Hlt|[->|Hlt]]; [|done|].
  - rewrite Hli in Hkj by lia. done.
  - rewrite Hlj in Hki by lia. done.
Qed.

Lemma first_known_iff name_parts (n : nat) (x : string) :
  first_known known_modules name_parts (range_down n) = Some x
  <-> longest_known_prefix known_modules name_parts n x.
Proof.
  pose proof (first_known_range name_parts n) as Hspec.
  destruct (first_known known_modules name_parts (range_down n)) as [y|].
  - split.
    + by intros [= <-].
    + intros Hx. f_equal. by apply (longest_known_prefix_unique name_parts n).
  - split; [done|]. intros (i & Hi & -> & Hk & _).
    rewrite Hspec in Hk by lia. done.
Qed.

Lemma handle_ast_import_elem (names : list string) (imported : gset string)
    (x : string) :
  Py.contains known_modules "" = false ->
  x ∈ _handle_ast_import names known_modules imported
  <-> x ∈ imported \/
      exists name, name ∈ names /\
        longest_known_prefix known_modules (Py.split "." name)
                             (length (Py.split "." name)) x.
Proof.
  intros Hempty. unfold _handle_ast_import.
  rewrite (elem_of_foldl_union _
    (fun name =>
       match first_known known_modules (Py.split "." name)
               (range_down (length (Py.split "." name))) with
       | Some b => if Py.truthy b then {[ b ]} else ∅
       | None => ∅
       end)).
  - apply or_iff_compat_l. f_equiv. intros name. apply and_iff_compat_l.
    rewrite <- first_known_iff.
    destruct (first_known known_modules (Py.split "." name) _) as [b|] eqn:Hb.
    + apply first_known_iff in Hb as (i & _ & _ & Hk & _).
      destruct b; [congruence|]. simpl. rewrite elem_of_singleton.
      naive_solver.
    + rewrite elem_of_empty. naive_solver.
  - intros acc name. cbv zeta.
    destruct (first_known known_modules (Py.split "." name) _) as [b|];
      [destruct (Py.truthy b)|]; set_solver.
Qed.
End direct.

(** C4: a direct import of [n1.n2...nk] tries the prefixes from the full
    name down to [n1] and adds the first one that is a known module, that
    is the longest known prefix; when no prefix is known it adds nothing.
    The registry never holds the empty name, which is what the hypothesis
    says. *)
Theorem direct_import_longest_prefix
    (known_modules : list (string * Path)) (names : list string)
    (imported : gset string) :
  Py.contains known_modules "" = false ->
  forall x,
    x ∈ _handle_ast_import names known_modules imported
    <-> x ∈ imported \/
        exists (name : string) (i : nat),
          name ∈ names
          /\ (1 <= i <= length (Py.split "." name))%nat
          /\ x = Py.join "." (take i (Py.split "." name))
          /\ Py.contains known_modules x = true
          /\ forall j : nat,
               (i < j <= length (Py.split "." name))%nat ->
               Py.contains known_modules
                 (Py.join "." (take j (Py.split "." name))) = false.
Proof.
  intros Hempty x. rewrite handle_ast_import_elem by done.
  unfold longest_known_prefix. naive_solver.
Qed.

(** In [top.py], [import sub.deep.mod] resolves to [sub.deep]. *)
Lemma direct_import_longest_prefix_witness :
  "sub.deep" ∈ _handle_ast_import ["sub.deep.mod"]
                 (build_module_registry Scenario.deep_tree) ∅.
Proof.
  apply (direct_import_longest_prefix
           (build_module_registry Scenario.deep_tree) ["sub.deep.mod"] ∅);
    [apply registry_no_empty_name|].
  right. exists "sub.deep.mod", 2%nat.
  split; [apply list_elem_of_here|].
  split; [simpl; lia|]. split; [reflexivity|]. split; [reflexivity|].
  intros j Hj. simpl in Hj. assert (j = 3%nat) as -> by lia. reflexivity.
Defined.

(** ** The importer index *)

Lemma lookup_initial_importers (keys : list string)
    (M : gmap string (gset string)) (m : string) :
  foldl (fun M k => <[k := ∅]> M) M keys !! m
  = if decide (m ∈ keys) then Some ∅ else M !! m.
Proof.
  revert M. induction keys as [|k keys IH]; intros M; cbn [foldl].
  - rewrite decide_False; [done|]. apply not_elem_of_nil.
  - rewrite IH. destruct (decide (m ∈ keys)) as [Hin|Hnin].
    + rewrite decide_True; [done|]. by apply elem_of_cons; right.
    + destruct (decide (m = k)) as [->|Hne].
      * rewrite lookup_insert_eq, decide_True; [done|]. apply list_elem_of_here.
      * rewrite lookup_insert_ne by done. rewrite decide_False; [done|].
        intros [?|?]%elem_of_cons; done.
Qed.

Lemma lookup_add_importer (current_module rel_path target : string)
    (M : gmap string (gset string)) (m : string) :
  add_importer current_module rel_path target M !! m
  = (fun s => if decide (m = target /\ target <> current_module)
              then s ∪ {[ rel_path ]} else s) <$> M !! m.
Proof.
  unfold add_importer.
  destruct (String.eqb_spec target current_module) as [->|Hne].
  - destruct (M !! m); [|done]. simpl. rewrite decide_False by tauto. done.
  - destruct (decide (m = target)) as [->|Hm].
    + destruct (M !! target) as [s|] eqn:Hs; [|by rewrite Hs].
      rewrite lookup_insert_eq. simpl. by rewrite decide_True.
    + destruct (M !! target) as [s|] eqn:Hs.
      * rewrite lookup_insert_ne by done. destruct (M !! m); [|done].
        simpl. rewrite decide_False by tauto. done.
      * destruct (M !! m); [|done]. simpl. rewrite decide_False by tauto.
        done.
Qed.

Lemma lookup_add_importers (current_module rel_path : string)
    (imported : gset string) (M : gmap string (gset string)) (m : string) :
  set_fold (add_importer current_module rel_path) M imported !! m
  = (fun s => if decide (m ∈ imported /\ m <> current_module)
              then s ∪ {[ rel_path ]} else s) <$> M !! m.
Proof.
  unfold set_fold. cbn [compose].
  assert (forall l : list string,
    foldr (add_importer current_module rel_path) M l !! m
    = (fun s => if decide (m ∈ l /\ m <> current_module)
                then s ∪ {[ rel_path ]} else s) <$> M !! m) as Hlist.
  { induction l as [|a l IH]; cbn [foldr].
    - destruct (M !! m); [|done]. cbn [fmap option_fmap option_map].
      f_equal; try (case_decide; set_solver).
    - rewrite lookup_add_importer, IH. destruct (M !! m) as [s|]; [|done].
      cbn [fmap option_fmap option_map]. f_equal.
      repeat case_decide; set_solver. }
  rewrite Hlist. destruct (M !! m) as [s|]; [|done].
  cbn [fmap option_fmap option_map]. f_equal.
  repeat case_decide; try done; exfalso; set_solver.
Qed.

Section graph.
Context (source : Path -> option (list AstNode)).

Lemma lookup_build_importers (known_modules : list (string * Path))
    (files : list Path) (M : gmap string (gset string)) (m : string) :
  build_importers source known_modules files M !! m
  = (fun s =>
       s ∪ list_to_set
             (relative_str <$>
                filter (fun f => file_to_module_name f <> ""
                                 /\ file_to_module_name f <> m
                                 /\ m ∈ parse_file_imports source f
                                                            known_modules)
                       files)) <$> M !! m.
Proof.
  unfold build_importers. revert M.
  induction files as [|f files IH]; intros M; cbn [foldl].
  - destruct (M !! m) as [s|]; [|done]. simpl. f_equal. set_solver.
  - rewrite IH. clear IH.
    destruct (Py.truthy (file_to_module_name f)) eqn:Ht; simpl.
    + apply truthy_iff in Ht. rewrite lookup_add_importers.
      destruct (M !! m) as [s|]; [|done]. simpl. f_equal.
      case_decide as Hd.
      * rewrite filter_cons_True by naive_solver. set_solver.
      * rewrite filter_cons_False by naive_solver. done.
    + apply truthy_false_iff in Ht.
      rewrite filter_cons_False by tauto. done.
Qed.

Lemma lookup_importer_index (tree : list Path) (m : string) :
  importer_index source tree !! m
  = if decide (m ∈ Py.keys (build_module_registry tree))
    then Some (importing_files source tree m) else None.
Proof.
  unfold importer_index. cbv zeta.
  rewrite lookup_build_importers, lookup_initial_importers.
  case_decide; [|by rewrite lookup_empty]. simpl. f_equal.
  unfold importing_files. apply set_eq. intros r.
  rewrite elem_of_union, elem_of_empty, !elem_of_list_to_set,
    !list_elem_of_fmap.
  setoid_rewrite list_elem_of_filter. setoid_rewrite elem_of_collect.
  naive_solver.
Qed.

(** The row [analyze] makes for one registry entry. *)
Lemma make_row_registered (tree : list Path) (entry : string * Path) :
  entry ∈ build_module_registry tree ->
  make_row (importer_index source tree) entry
  = Some
      {| r_module := entry.1;
         r_rel_path := relative_str entry.2;
         r_depth := compute_depth entry.2;
         r_import_count :=
           Z.of_nat (size (importing_files source tree entry.1));
         r_importers :=
           Py.sorted (elements (importing_files source tree entry.1));
         r_score :=
           compute_depth entry.2
           * Z.of_nat (size (importing_files source tree entry.1)) |}.
Proof.
  intros Hentry. unfold make_row. rewrite lookup_importer_index.
  rewrite decide_True; [done|]. unfold Py.keys.
  apply list_elem_of_fmap. by exists entry.
Qed.

Lemma analyze_total (tree : list Path) :
  exists rows,
    analyze source tree = Some rows
    /\ Forall2 (fun entry row =>
                  make_row (importer_index source tree) entry = Some row)
               (build_module_registry tree) rows.
Proof.
  unfold analyze. cbv zeta.
  assert (is_Some (mapM (make_row (importer_index source tree))
                        (build_module_registry tree))) as [rows Hrows].
  { apply mapM_is_Some, Forall_forall. intros entry Hentry. simpl.
    rewrite make_row_registered by done. eauto. }
  exists rows. split; [done|]. by apply mapM_Some.
Qed.

Lemma analyze_row (tree : list Path) (rows : list Row) (row : Row) :
  analyze source tree = Some rows -> row ∈ rows ->
  exists f,
    Py.getitem (build_module_registry tree) (r_module row) = Some f
    /\ r_rel_path row = relative_str f
    /\ r_depth row = compute_depth f
    /\ r_import_count row
       = Z.of_nat (size (importing_files source tree (r_module row)))
    /\ r_importers row
       = Py.sorted (elements (importing_files source tree (r_module row)))
    /\ r_score row = r_depth row * r_import_count row.
Proof.
  intros Hrows Hrow. apply mapM_Some in Hrows.
  apply list_elem_of_lookup in Hrow as [i Hi].
  destruct (Forall2_lookup_r _ _ _ _ _ Hrows Hi) as ([k f] & Hentry & Hmake).
  apply list_elem_of_lookup_2 in Hentry.
  rewrite make_row_registered in Hmake by done. injection Hmake as <-.
  exists f. simpl. split_and!; try done. by apply registry_entry.
Qed.

Lemma analyze_modules (tree : list Path) (rows : list Row) :
  analyze source tree = Some rows ->
  r_module <$> rows = Py.keys (build_module_registry tree).
Proof.
  intros Hrows. apply mapM_Some in Hrows. unfold Py.keys.
  induction Hrows as [|entry row entries rows Hmake _ IH]; [done|].
  rewrite !fmap_cons, IH. f_equal. unfold make_row in Hmake.
  destruct (importer_index source tree !! entry.1); simplify_eq/=. done.
Qed.
End graph.

(** ** Root-relative paths as strings *)

Lemma mentions_app (c : ascii) (s t : string) :
  mentions c (s +:+ t) = mentions c s || mentions c t.
Proof.
  induction s as [|a s IH]; simpl; [done|]. rewrite IH. apply orb_assoc.
Qed.

Lemma split_free (c : ascii) (s : string) :
  mentions c s = false -> Py.split c s = [s].
Proof.
  induction s as [|a s IH]; simpl; [done|].
  intros [Ha Hs]%orb_false_elim. rewrite Ha, IH by done. done.
Qed.

Lemma split_app_sep (c : ascii) (s t : string) :
  mentions c s = false ->
  Py.split c (s +:+ String c t) = s :: Py.split c t.
Proof.
  induction s as [|a s IH]; simpl.
  - intros _. by rewrite Ascii.eqb_refl.
  - intros [Ha Hs]%orb_false_elim. rewrite Ha, IH by done. done.
Qed.

Lemma split_join (c : ascii) (l : list string) :
  l <> [] -> Forall (fun s => mentions c s = false) l ->
  Py.split c (Py.join (String c "") l) = l.
Proof.
  intros Hne Hfree. induction Hfree as [|x l Hx Hl IH]; [done|].
  destruct l as [|y l].
  - by apply split_free.
  - change (Py.join (String c "") (x :: y :: l))
      with (x +:+ String c (Py.join (String c "") (y :: l))).
    rewrite split_app_sep by done. f_equal. by apply IH.
Qed.

Lemma relative_str_inj (f g : Path) :
  Forall (fun part => mentions "/" part = false) (parts f) ->
  Forall (fun part => mentions "/" part = false) (parts g) ->
  relative_str f = relative_str g -> f = g.
Proof.
  intros Hf Hg Heq. apply parts_inj.
  rewrite <- (split_join "/" (parts f)), <- (split_join "/" (parts g));
    [by f_equal|by destruct g as [[|??] ?]|done|by destruct f as [[|??] ?]|done].
Qed.

Lemma relative_str_root_initializer (f : Path) :
  relative_str f = "__init__.py" -> f = root_initializer.
Proof.
  destruct f as [[|d ds] name]; unfold relative_str, parts; simpl.
  - by intros ->.
  - destruct (ds ++ [name]) as [|y l] eqn:Htail.
    + by destruct ds.
    + intros Heq%(f_equal (mentions "/")). rewrite mentions_app in Heq.
      simpl in Heq. by rewrite orb_true_r in Heq.
Qed.

(** ** The metrics of [analyze] *)

(** C1, as the code has it: [analyze] returns one row per registry module,
    in registry order and each module once (modules without importers
    included); the importer count of a module [m] is the number of
    distinct root-relative paths of the files that have a non-empty module
    name other than [m] and whose resolved dependency set holds [m], and
    the importer list holds those paths; the keys of the importer index
    are the registry's; and the path of [m]'s own file is not among its
    importers. *)
Theorem importer_counts
    (source : Path -> option (list AstNode)) (tree : list Path) :
  exists rows,
    analyze source tree = Some rows
    /\ r_module <$> rows = Py.keys (build_module_registry tree)
    /\ NoDup (r_module <$> rows)
    /\ (forall row, row ∈ rows ->
          r_import_count row
          = Z.of_nat (size (importing_files source tree (r_module row)))
          /\ forall r, r ∈ r_importers row
                       <-> r ∈ importing_files source tree (r_module row))
    /\ dom (importer_index source tree)
       = list_to_set (Py.keys (build_module_registry tree))
    /\ (valid_tree tree ->
        forall row, row ∈ rows -> r_rel_path row ∉ r_importers row).
Proof.
  destruct (analyze_total source tree) as (rows & Hrows & _).
  exists rows. split; [done|].
  pose proof (analyze_modules source tree rows Hrows) as Hmods.
  split; [done|]. split.
  { rewrite Hmods, build_module_registry_fold. apply registered_NoDup. }
  assert (forall row, row ∈ rows ->
            forall r, r ∈ r_importers row
                      <-> r ∈ importing_files source tree (r_module row))
    as Himporters.
  { intros row Hrow r.
    destruct (analyze_row source tree rows row Hrows Hrow)
      as (f & _ & _ & _ & _ & -> & _).
    unfold Py.sorted. by rewrite elem_of_sorted_by, elem_of_elements. }
  split_and!.
  - intros row Hrow. split; [|by apply Himporters].
    by destruct (analyze_row source tree rows row Hrows Hrow)
      as (f & _ & _ & _ & -> & _).
  - apply set_eq. intros m.
    rewrite elem_of_dom, lookup_importer_index, elem_of_list_to_set.
    case_decide; split; eauto; try done.
  - intros Hvalid row Hrow Hself. apply Himporters in Hself; [|done].
    destruct (analyze_row source tree rows row Hrows Hrow)
      as (f & Hf & Hrel & _).
    apply registry_getitem in Hf as (_ & Hfin & Hfname).
    unfold importing_files in Hself.
    apply elem_of_list_to_set, list_elem_of_fmap in Hself
      as (g & Hg & [(_ & Hgname & _) Hgin]%list_elem_of_filter).
    unfold valid_tree in Hvalid. rewrite Forall_forall in Hvalid.
    rewrite Hrel in Hg. apply relative_str_inj in Hg; [|by apply Hvalid..].
    congruence.
Qed.

(** With [import a] in both [__init__.py] and [b.py], the importers of
    [a] are [b.py] alone, and no row lists its own file. *)
Lemma importer_counts_witness :
  analyze Scenario.rooted_source Scenario.rooted_tree
  = Some [ mkRow "a" "a.py" 0 1 ["b.py"] 0; mkRow "b" "b.py" 0 0 [] 0 ]
  /\ forall row,
       row ∈ [ mkRow "a" "a.py" 0 1 ["b.py"] 0; mkRow "b" "b.py" 0 0 [] 0 ] ->
       r_rel_path row ∉ r_importers row.
Proof.
  destruct (importer_counts Scenario.rooted_source Scenario.rooted_tree)
    as (rows & Hrows & _ & _ & _ & _ & Hself).
  assert (rows = [ mkRow "a" "a.py" 0 1 ["b.py"] 0; mkRow "b" "b.py" 0 0 [] 0 ])
    as ->.
  { apply (inj Some). rewrite <- Hrows. vm_compute. reflexivity. }
  split; [reflexivity|]. apply Hself.
  repeat constructor.
Defined.

(** C1 as stated fails: with [import a] in the root [__init__.py] and in
    [b.py], two files other than [a.py] have [a] in their resolved
    dependency set, yet the importer count of [a] is 1; and with
    [import pkg] in [pkg/__init__.py] beside [pkg.py], one file other than
    the registered [pkg.py] has [pkg] in its set, yet the count is 0. *)
Lemma importer_count_skips_files :
  (analyze Scenario.rooted_source Scenario.rooted_tree
   = Some [ mkRow "a" "a.py" 0 1 ["b.py"] 0; mkRow "b" "b.py" 0 0 [] 0 ]
   /\ size (other_files_importing Scenario.rooted_source
                                  Scenario.rooted_tree "a") = 2%nat)
  /\ (analyze Scenario.collision_source Scenario.collision_tree
      = Some [ mkRow "pkg" "pkg.py" 0 0 [] 0 ]
      /\ size (other_files_importing Scenario.collision_source
                                     Scenario.collision_tree "pkg") = 1%nat).
Proof. repeat split; vm_compute; reflexivity. Qed.

(** ** The root package initializer *)

Lemma parse_file_imports_ext
    (source1 source2 : Path -> option (list AstNode)) (f : Path)
    (known_modules : list (string * Path)) :
  source1 f = source2 f ->
  parse_file_imports source1 f known_modules
  = parse_file_imports source2 f known_modules.
Proof. intros Heq. unfold parse_file_imports. by rewrite Heq. Qed.

(** C10: the imports of an [__init__.py] directly under the root add no
    edge: whatever that file holds, the importer index and the metrics are
    the same, and its path is in no importer set; every other file that
    has a module name still counts as an importer of the known modules it
    depends on. *)
Theorem root_initializer_not_importer
    (source1 source2 : Path -> option (list AstNode)) (tree : list Path) :
  (forall f, f ∈ tree -> f <> root_initializer -> source1 f = source2 f) ->
  importer_index source1 tree = importer_index source2 tree
  /\ analyze source1 tree = analyze source2 tree
  /\ (forall m s,
        importer_index source1 tree !! m = Some s ->
        relative_str root_initializer ∉ s)
  /\ (forall m g,
        m ∈ Py.keys (build_module_registry tree) ->
        g ∈ tree ->
        file_to_module_name g <> "" ->
        file_to_module_name g <> m ->
        m ∈ parse_file_imports source1 g (build_module_registry tree) ->
        exists s, importer_index source1 tree !! m = Some s
                  /\ relative_str g ∈ s).
Proof.
  intros Hagree.
  assert (importer_index source1 tree = importer_index source2 tree) as Hindex.
  { apply map_eq. intros m. rewrite !lookup_importer_index.
    case_decide; [|done]. f_equal. unfold importing_files.
    apply set_eq. intros r.
    rewrite !elem_of_list_to_set, !list_elem_of_fmap.
    setoid_rewrite list_elem_of_filter.
    split; intros (g & -> & (Hname & Hother & Hdep) & Hg); exists g;
      (split; [done|]); (split; [|done]); (split; [done|]); (split; [done|]).
    - rewrite <- (parse_file_imports_ext source1 source2); [done|].
      apply Hagree; [done|]. by intros ->.
    - rewrite (parse_file_imports_ext source1 source2); [done|].
      apply Hagree; [done|]. by intros ->. }
  split_and!.
  - done.
  - unfold analyze. by rewrite Hindex.
  - intros m s. rewrite lookup_importer_index. case_decide; [|done].
    intros [= <-]. unfold importing_files.
    rewrite elem_of_list_to_set, list_elem_of_fmap.
    setoid_rewrite list_elem_of_filter.
    intros (g & Hrel & (Hname & _) & _). symmetry in Hrel.
    apply relative_str_root_initializer in Hrel as ->. done.
  - intros m g Hm Hg Hname Hother Hdep. rewrite lookup_importer_index.
    rewrite decide_True by done. eexists. split; [done|].
    unfold importing_files. rewrite elem_of_list_to_set, list_elem_of_fmap.
    exists g. split; [done|]. by apply list_elem_of_filter.
Qed.

(** Emptying the root [__init__.py] of its [import a] changes nothing. *)
Lemma root_initializer_not_importer_witness :
  analyze Scenario.rooted_source Scenario.rooted_tree
  = analyze Scenario.rooted_source_silent Scenario.rooted_tree.
Proof.
  apply (root_initializer_not_importer
           Scenario.rooted_source Scenario.rooted_source_silent
           Scenario.rooted_tree).
  intros f _ Hf. unfold Scenario.rooted_source_silent.
  destruct (decide (f = root_initializer)); [contradiction|reflexivity].
Defined.

(** ** Module names and depths *)

(** C6: a package initializer maps to the dotted name of its directory,
    which is empty for the root, and no registry entry has the empty name
    or the root initializer as its file; any other file maps to its
    directory segments and its name without the suffix; the depth of every
    row is the number of parts of its file's root-relative path minus one,
    0 for a file in the root and 1 for a file one directory down. *)
Theorem module_names_and_depths :
  (forall dirs,
     file_to_module_name (mkPath dirs "__init__.py") = Py.join "." dirs)
  /\ file_to_module_name (mkPath [] "__init__.py") = ""
  /\ (forall tree entry,
        entry ∈ build_module_registry tree ->
        entry.1 <> "" /\ entry.2 <> mkPath [] "__init__.py")
  /\ (forall dirs stem,
        stem +:+ ".py" <> "__init__.py" ->
        file_to_module_name (mkPath dirs (stem +:+ ".py"))
        = Py.join "." (dirs ++ [stem]))
  /\ (forall source tree rows row,
        analyze source tree = Some rows -> row ∈ rows ->
        exists f,
          Py.getitem (build_module_registry tree) (r_module row) = Some f
          /\ r_depth row = Z.of_nat (length (parts f)) - 1)
  /\ (forall name, compute_depth (mkPath [] name) = 0)
  /\ (forall dir name, compute_depth (mkPath [dir] name) = 1).
Proof.
  split_and!.
  - apply module_name_of_initializer.
  - reflexivity.
  - intros tree [k f] Hentry. apply registry_entry in Hentry.
    apply registry_getitem in Hentry as (Hk & _ & Hname). simpl.
    split; [done|]. intros ->. apply Hk. by rewrite <- Hname.
  - intros dirs stem Hstem. rewrite module_name_of_file by done.
    by rewrite str_slice_to_strip_py.
  - intros source tree rows row Hrows Hrow.
    destruct (analyze_row source tree rows row Hrows Hrow)
      as (f & Hf & _ & Hdepth & _).
    exists f. split; [done|]. by rewrite Hdepth.
  - reflexivity.
  - reflexivity.
Qed.

(** ** The dead and cold views *)

Lemma StronglySorted_weaken {A} (R R' : A -> A -> Prop) (l : list A) :
  (forall a b, R a b -> R' a b) -> StronglySorted R l -> StronglySorted R' l.
Proof.
  intros Himpl. induction 1 as [|a l Hl IH Ha]; constructor; [done|].
  eapply Forall_impl; [exact Ha|]. auto.
Qed.

Lemma NoDup_fmap_eq {A B} (f : A -> B) (l : list A) (x y : A) :
  NoDup (f <$> l) -> x ∈ l -> y ∈ l -> f x = f y -> x = y.
Proof.
  induction l as [|a l IH]; [by intros _ ?%elem_of_nil|].
  rewrite fmap_cons, NoDup_cons.
  intros [Ha Hl] [->|Hx]%elem_of_cons [->|Hy]%elem_of_cons Heq; auto.
  - exfalso. apply Ha. rewrite Heq. by apply list_elem_of_fmap_2.
  - exfalso. apply Ha. rewrite <- Heq. by apply list_elem_of_fmap_2.
Qed.

Lemma dead_key_ordered (r1 r2 : Row) :
  Py.ordered_by (fun r => (- r_depth r, r_module r)) r1 r2 -> dead_order r1 r2.
Proof.
  unfold Py.ordered_by, dead_order, Py.less, Py.pair_lt. simpl.
  case_decide as Hd.
  - intros Hm. right. split; [lia|done].
  - unfold Py.less, Py.int_lt. intros Hlt%Z.ltb_ge. left. lia.
Qed.

Lemma dead_key_less (r1 r2 : Row) :
  r_depth r2 < r_depth r1 ->
  Py.less (- r_depth r1, r_module r1) (- r_depth r2, r_module r2) = true.
Proof.
  intros Hd. unfold Py.less, Py.pair_lt. simpl.
  rewrite decide_False by lia. apply Z.ltb_lt. lia.
Qed.

Lemma elem_of_dead_rows (results : list Row) (r : Row) :
  r ∈ dead_rows results <-> r ∈ results /\ r_import_count r = 0.
Proof.
  unfold dead_rows. rewrite elem_of_sorted_by, list_elem_of_filter. tauto.
Qed.

Lemma elem_of_cold_rows (max_imports min_depth : Z) (results : list Row)
    (r : Row) :
  r ∈ cold_rows max_imports min_depth results
  <-> r ∈ results /\ 1 <= r_import_count r <= max_imports
      /\ min_depth <= r_depth r.
Proof.
  unfold cold_rows. rewrite elem_of_sorted_by, list_elem_of_filter. tauto.
Qed.

Lemma analyze_modules_NoDup
    (source : Path -> option (list AstNode)) (tree : list Path)
    (rows : list Row) :
  analyze source tree = Some rows -> NoDup (r_module <$> rows).
Proof.
  intros Hrows. rewrite (analyze_modules source tree rows Hrows).
  rewrite build_module_registry_fold. apply registered_NoDup.
Qed.

(** C7: the dead view keeps exactly the rows with importer count 0, the
    cold view exactly those with a count in [1, max] (max being 3 by
    default) and a depth of at least the minimum; no row is in both, and
    no module of an analysis is in both; the dead view is sorted by depth
    descending, then module name ascending, so that in what [cmd_dead]
    shows a deeper row stands before a shallower one. *)
Theorem dead_and_cold_views
    (results : list Row) (max_imports min_depth top : Z) :
  (forall r, r ∈ dead_rows results <-> r ∈ results /\ r_import_count r = 0)
  /\ (forall r,
        r ∈ cold_rows max_imports min_depth results
        <-> r ∈ results /\ 1 <= r_import_count r <= max_imports
            /\ min_depth <= r_depth r)
  /\ (forall r,
        r ∈ cold_rows default_max_imports min_depth results
        <-> r ∈ results /\ 1 <= r_import_count r <= 3
            /\ min_depth <= r_depth r)
  /\ (forall r,
        ~ (r ∈ dead_rows results
           /\ r ∈ cold_rows max_imports min_depth results))
  /\ (forall source tree r1 r2,
        analyze source tree = Some results ->
        r1 ∈ dead_rows results ->
        r2 ∈ cold_rows max_imports min_depth results ->
        r_module r1 <> r_module r2)
  /\ StronglySorted dead_order (dead_rows results)
  /\ (forall r, r ∈ cmd_dead top results -> r ∈ dead_rows results)
  /\ (forall r,
        r ∈ cmd_cold max_imports min_depth top results ->
        r ∈ cold_rows max_imports min_depth results)
  /\ (forall (i j : nat) r1 r2,
        cmd_dead top results !! i = Some r1 ->
        cmd_dead top results !! j = Some r2 ->
        r_depth r2 < r_depth r1 -> (i < j)%nat).
Proof.
  split_and!.
  - apply elem_of_dead_rows.
  - apply elem_of_cold_rows.
  - apply elem_of_cold_rows.
  - intros r [Hdead Hcold]. apply elem_of_dead_rows in Hdead.
    apply elem_of_cold_rows in Hcold. lia.
  - intros source tree r1 r2 Hrows Hdead Hcold Heq.
    apply elem_of_dead_rows in Hdead as [Hr1 Hzero].
    apply elem_of_cold_rows in Hcold as (Hr2 & Hcount & _).
    apply analyze_modules_NoDup in Hrows.
    assert (r1 = r2) as -> by by apply (NoDup_fmap_eq r_module results).
    lia.
  - unfold dead_rows.
    eapply StronglySorted_weaken; [apply dead_key_ordered|].
    apply sorted_by_StronglySorted.
  - intros r. unfold cmd_dead.
    destruct (slice_to_is_take (dead_rows results) top) as [n ->].
    apply subseteq_take.
  - intros r. unfold cmd_cold.
    destruct (slice_to_is_take (cold_rows max_imports min_depth results) top)
      as [n ->].
    apply subseteq_take.
  - intros i j r1 r2. unfold cmd_dead.
    destruct (slice_to_is_take (dead_rows results) top) as [n ->].
    intros [Hi _]%lookup_take_Some [Hj _]%lookup_take_Some Hdepth.
    unfold dead_rows in Hi, Hj.
    eapply (StronglySorted_ordered_lookup
              (fun r => (- r_depth r, r_module r))); [|exact Hi|exact Hj|].
    + apply sorted_by_StronglySorted.
    + by apply dead_key_less.
Qed.

(** Of three modules nobody imports, the one at depth 3 is listed first,
    then the one at depth 1, then the one in the root. *)
Example dead_view_deepest_first :
  r_module <$> cmd_dead 50 Scenario.view_rows
  = ["a.b.c.deep"; "a.shallow"; "main"].
Proof. reflexivity. Qed.

(** * Further properties of the program *)

(** ** The enumeration of the files *)

Section canonical_sort.
Context {A K : Type} `{Py.StrictTotal K} (key : A -> K) `{!Inj (=) (=) key}.

Lemma ordered_by_antisym : AntiSymm (=) (Py.ordered_by key).
Proof.
  intros a b Hab Hba. unfold Py.ordered_by in *. apply (inj key).
  destruct (Py.less_connex (key a) (key b)) as [?|[?|?]]; congruence.
Qed.

Lemma sorted_by_canonical (l1 l2 : list A) :
  l1 ≡ₚ l2 -> Py.sorted_by key l1 = Py.sorted_by key l2.
Proof.
  intros Hperm.
  apply (StronglySorted_unique (Py.ordered_by key)
           (AntiSymm0 := ordered_by_antisym)).
  - apply sorted_by_StronglySorted.
  - apply sorted_by_StronglySorted.
  - by rewrite !sorted_by_Permutation.
Qed.

Lemma sorted_by_sorted (l : list A) :
  StronglySorted (Py.ordered_by key) l -> Py.sorted_by key l = l.
Proof.
  intros Hl.
  apply (StronglySorted_unique (Py.ordered_by key)
           (AntiSymm0 := ordered_by_antisym)).
  - apply sorted_by_StronglySorted.
  - done.
  - apply sorted_by_Permutation.
Qed.
End canonical_sort.

(** X1: [collect_python_files] returns the files it is given, each as
    often as given, in ascending order of their parts; the order in which
    the walk of the tree yields them does not matter, and sorting what is
    sorted changes nothing. *)
Theorem collect_python_files_canonical (tree : list Path) :
  collect_python_files tree ≡ₚ tree
  /\ StronglySorted (fun f g => Py.less g f = false)
                    (collect_python_files tree)
  /\ (forall tree',
        tree' ≡ₚ tree ->
        collect_python_files tree' = collect_python_files tree)
  /\ collect_python_files (collect_python_files tree)
     = collect_python_files tree.
Proof.
  split_and!.
  - apply sorted_by_Permutation.
  - apply collect_sorted.
  - intros tree' Hperm. by apply (sorted_by_canonical (K:=Path) id).
  - apply (sorted_by_sorted (K:=Path) id), collect_sorted.
Qed.

(** X2: the registry, the importer index and the metrics depend on the
    files of the tree only, not on the order in which they are found. *)
Theorem enumeration_order_irrelevant
    (source : Path -> option (list AstNode)) (tree tree' : list Path) :
  tree' ≡ₚ tree ->
  build_module_registry tree' = build_module_registry tree
  /\ importer_index source tree' = importer_index source tree
  /\ analyze source tree' = analyze source tree.
Proof.
  intros Hperm.
  assert (collect_python_files tree' = collect_python_files tree) as Hfiles
    by by apply (sorted_by_canonical (K:=Path) id).
  unfold analyze, importer_index, build_module_registry.
  by rewrite Hfiles.
Qed.

(** Found in reverse order, the root package gives the same metrics. *)
Lemma enumeration_order_irrelevant_witness :
  analyze Scenario.rooted_source (reverse Scenario.rooted_tree)
  = analyze Scenario.rooted_source Scenario.rooted_tree.
Proof.
  apply (enumeration_order_irrelevant Scenario.rooted_source
           Scenario.rooted_tree (reverse Scenario.rooted_tree)).
  apply reverse_Permutation.
Defined.

(** ** The registry without name collisions *)





(** ** The dependency set of one file *)

Section file_imports.
Context (known_modules : list (string * Path)).

Lemma handle_ast_import_union (names : list string) (imported : gset string)
    (x : string) :
  x ∈ _handle_ast_import names known_modules imported
  <-> x ∈ imported \/
      exists name, name ∈ names /\ x <> "" /\
        longest_known_prefix known_modules (Py.split "." name)
                             (length (Py.split "." name)) x.
Proof.
  unfold _handle_ast_import.
  rewrite (elem_of_foldl_union _
    (fun name =>
       match first_known known_modules (Py.split "." name)
               (range_down (length (Py.split "." name))) with
       | Some b => if Py.truthy b then {[ b ]} else ∅
       | None => ∅
       end)).
  - apply or_iff_compat_l. f_equiv. intros name. apply and_iff_compat_l.
    rewrite <- first_known_iff.
    destruct (first_known known_modules (Py.split "." name) _) as [b|] eqn:Hb.
    + destruct (Py.truthy b) eqn:Ht.
      * apply truthy_iff in Ht. rewrite elem_of_singleton. naive_solver.
      * apply truthy_false_iff in Ht. rewrite elem_of_empty. naive_solver.
    + rewrite elem_of_empty. naive_solver.
  - intros acc name. cbv zeta.
    destruct (first_known known_modules (Py.split "." name) _) as [b|];
      [destruct (Py.truthy b)|]; set_solver.
Qed.

Lemma handle_ast_import_adds (names : list string) (imported : gset string) :
  _handle_ast_import names known_modules imported
  = imported ∪ _handle_ast_import names known_modules ∅.
Proof.
  apply set_eq. intros x.
  rewrite elem_of_union, !handle_ast_import_union, elem_of_empty. tauto.
Qed.


Lemma handle_from_adds (node_level : option Z) (module : option string)
    (names : list string) (current_module : string)
    (imported : gset string) :
  _handle_ast_import_from node_level module names current_module
                          known_modules imported
  = imported
    ∪ _handle_ast_import_from node_level module names current_module
                              known_modules ∅.
Proof.
  destruct node_level as [l|]; [destruct (decide (0 < l))|].
  - rewrite !handle_from_relative by done. set_solver.
  - apply set_eq. intros x. rewrite elem_of_union.
    rewrite !handle_from_absolute by (intros ? [= <-]; lia).
    rewrite elem_of_empty. tauto.
  - apply set_eq. intros x. rewrite elem_of_union.
    rewrite !handle_from_absolute by done. rewrite elem_of_empty. tauto.
Qed.



Lemma parse_file_imports_elem
    (source : Path -> option (list AstNode)) (f : Path) (x : string) :
  x ∈ parse_file_imports source f known_modules
  <-> exists nodes node,
        source f = Some nodes /\ node ∈ nodes
        /\ x ∈ node_imports known_modules (file_to_module_name f) node.
Proof.
  unfold parse_file_imports. destruct (source f) as [nodes|].
  - cbv zeta.
    rewrite (elem_of_foldl_union _
      (node_imports known_modules (file_to_module_name f))).
    + rewrite elem_of_empty. naive_solver.
    + intros acc [names|level module names|]; simpl.
      * apply handle_ast_import_adds.
      * apply handle_from_adds.
      * set_solver.
  - rewrite elem_of_empty. naive_solver.
Qed.
End file_imports.


(** X5: the dependency set of a file is the union of what each of its
    import statements resolves to on its own: neither the order of the
    statements nor a repeated statement changes it. *)
Theorem parse_file_imports_union
    (source source' : Path -> option (list AstNode)) (f : Path)
    (known_modules : list (string * Path)) (nodes nodes' : list AstNode) :
  source f = Some nodes ->
  source' f = Some nodes' ->
  (forall x,
     x ∈ parse_file_imports source f known_modules
     <-> exists node, node ∈ nodes
           /\ x ∈ node_imports known_modules (file_to_module_name f) node)
  /\ ((forall node, node ∈ nodes <-> node ∈ nodes') ->
      parse_file_imports source f known_modules
      = parse_file_imports source' f known_modules).
Proof.
  intros Hnodes Hnodes'.
  assert (forall x,
     x ∈ parse_file_imports source f known_modules
     <-> exists node, node ∈ nodes
           /\ x ∈ node_imports known_modules (file_to_module_name f) node)
    as Hunion.
  { intros x. rewrite parse_file_imports_elem. rewrite Hnodes.
    split; [intros (? & node & [= <-] & ?); eauto|].
    intros (node & ?). eauto. }
  split; [done|]. intros Hsame. apply set_eq. intros x.
  rewrite Hunion, parse_file_imports_elem, Hnodes'.
  split.
  - intros (node & Hin & Hx). exists nodes', node.
    split; [done|]. split; [by apply Hsame|done].
  - intros (? & node & [= <-] & Hin & Hx). exists node.
    split; [by apply Hsame|done].
Qed.

(** [pkg/b.py] with [from . import a] and [import pkg.a], in either order
    and with the second statement twice, depends on [pkg.a] alone. *)
Lemma parse_file_imports_union_witness :
  parse_file_imports
    (fun _ => Some [ImportFrom (Some 1) None ["a"]; Import ["pkg.a"]])
    (mkPath ["pkg"] "b.py") (build_module_registry Scenario.pkg_tree)
  = parse_file_imports
      (fun _ => Some [Import ["pkg.a"]; ImportFrom (Some 1) None ["a"];
                      Import ["pkg.a"]])
      (mkPath ["pkg"] "b.py") (build_module_registry Scenario.pkg_tree).
Proof.
  eapply (parse_file_imports_union _ _ (mkPath ["pkg"] "b.py")
            (build_module_registry Scenario.pkg_tree));
    [reflexivity|reflexivity|].
  intros node. rewrite !elem_of_cons. tauto.
Defined.

(** ** The rows of [analyze] *)

Lemma size_list_to_set_le (l : list string) :
  (size (list_to_set l : gset string) <= length l)%nat.
Proof.
  induction l as [|a l IH].
  - by rewrite list_to_set_nil, size_empty.
  - rewrite list_to_set_cons, size_union_alt, size_singleton. cbn [length].
    assert (size (list_to_set l ∖ {[a]} : gset string)
            <= size (list_to_set l : gset string))%nat
      by (apply subseteq_size; set_solver).
    lia.
Qed.

Lemma length_filter_lt {A} (P : A -> Prop) `{forall x, Decision (P x)}
    (l : list A) (x : A) :
  x ∈ l -> ~ P x -> (length (filter P l) < length l)%nat.
Proof.
  intros (l1 & l2 & ->)%list_elem_of_split Hx.
  rewrite filter_app, filter_cons_False by done.
  rewrite !length_app. simpl.
  pose proof (length_filter P l1). pose proof (length_filter P l2). lia.
Qed.

Lemma StronglySorted_strict (l : list string) :
  StronglySorted (fun a b => String.ltb b a = false) l -> NoDup l ->
  StronglySorted (fun a b => String.ltb a b = true) l.
Proof.
  induction 1 as [|a l Hl IH Ha]; intros Hnd; [constructor|].
  apply NoDup_cons in Hnd as [Hnotin Hnd]. constructor; [by apply IH|].
  rewrite Forall_forall in Ha |- *. intros b Hb.
  destruct (Py.less_connex a b) as [?|[->|Hba]]; [done|done|].
  specialize (Ha b Hb). unfold Py.less, Py.str_lt in Hba. congruence.
Qed.

(** X6: in every row of [analyze] the score is the depth times the
    importer count; depth, count and score are never negative; and a
    module has fewer importers than the tree has files. *)
Theorem row_arithmetic
    (source : Path -> option (list AstNode)) (tree : list Path)
    (rows : list Row) (row : Row) :
  analyze source tree = Some rows -> row ∈ rows ->
  r_score row = r_depth row * r_import_count row
  /\ 0 <= r_depth row
  /\ 0 <= r_import_count row < Z.of_nat (length tree)
  /\ 0 <= r_score row.
Proof.
  intros Hrows Hrow.
  destruct (analyze_row source tree rows row Hrows Hrow)
    as (f & Hf & _ & Hdepth & Hcount & _ & Hscore).
  assert (0 <= r_depth row) as Hd.
  { rewrite Hdepth. unfold compute_depth, parts. rewrite length_app. simpl.
    lia. }
  assert (0 <= r_import_count row < Z.of_nat (length tree)) as Hc.
  { rewrite Hcount. split; [lia|]. apply inj_lt.
    apply registry_getitem in Hf as (_ & Hin & Hname).
    unfold importing_files.
    eapply Nat.le_lt_trans; [apply size_list_to_set_le|].
    rewrite length_fmap. apply (length_filter_lt _ _ f); [done|]. tauto. }
  split_and!; [done|done|lia|lia|]. rewrite Hscore. lia.
Qed.

(** The row of [a] in the root package. *)
Lemma row_arithmetic_witness :
  r_score (mkRow "a" "a.py" 0 1 ["b.py"] 0)
  = r_depth (mkRow "a" "a.py" 0 1 ["b.py"] 0)
    * r_import_count (mkRow "a" "a.py" 0 1 ["b.py"] 0)
  /\ 0 <= r_depth (mkRow "a" "a.py" 0 1 ["b.py"] 0)
  /\ 0 <= r_import_count (mkRow "a" "a.py" 0 1 ["b.py"] 0)
       < Z.of_nat (length Scenario.rooted_tree)
  /\ 0 <= r_score (mkRow "a" "a.py" 0 1 ["b.py"] 0).
Proof.
  apply (row_arithmetic Scenario.rooted_source Scenario.rooted_tree
           [ mkRow "a" "a.py" 0 1 ["b.py"] 0; mkRow "b" "b.py" 0 0 [] 0 ]).
  - vm_compute. reflexivity.
  - apply list_elem_of_here.
Defined.

(** X7: the importer list of every row is strictly ascending, so it has
    no duplicate, and its length is the importer count of the row. *)
Theorem row_importers_sorted
    (source : Path -> option (list AstNode)) (tree : list Path)
    (rows : list Row) (row : Row) :
  analyze source tree = Some rows -> row ∈ rows ->
  StronglySorted (fun a b => String.ltb a b = true) (r_importers row)
  /\ NoDup (r_importers row)
  /\ Z.of_nat (length (r_importers row)) = r_import_count row.
Proof.
  intros Hrows Hrow.
  destruct (analyze_row source tree rows row Hrows Hrow)
    as (f & _ & _ & _ & -> & -> & _).
  set (s := importing_files source tree (r_module row)).
  assert (NoDup (Py.sorted (elements s))) as Hnd.
  { unfold Py.sorted. rewrite (sorted_by_Permutation (K:=string) id).
    apply NoDup_elements. }
  split_and!.
  - apply StronglySorted_strict; [|done].
    apply (sorted_by_StronglySorted (K:=string) id).
  - done.
  - unfold Py.sorted. rewrite (sorted_by_Permutation (K:=string) id). done.
Qed.

(** The importers of [a] in the root package. *)
Lemma row_importers_sorted_witness :
  StronglySorted (fun a b => String.ltb a b = true) ["b.py"]
  /\ NoDup ["b.py"]
  /\ Z.of_nat (length ["b.py"]) = 1.
Proof.
  apply (row_importers_sorted Scenario.rooted_source Scenario.rooted_tree
           [ mkRow "a" "a.py" 0 1 ["b.py"] 0; mkRow "b" "b.py" 0 0 [] 0 ]
           (mkRow "a" "a.py" 0 1 ["b.py"] 0)).
  - vm_compute. reflexivity.
  - apply list_elem_of_here.
Defined.



(** X9: a row is in the dead view exactly when no file with a module name
    other than the row's own has the row's module in its dependency
    set. *)
Theorem dead_means_unimported
    (source : Path -> option (list AstNode)) (tree : list Path)
    (rows : list Row) (row : Row) :
  analyze source tree = Some rows -> row ∈ rows ->
  (row ∈ dead_rows rows
   <-> forall g, g ∈ tree ->
         file_to_module_name g <> "" ->
         file_to_module_name g <> r_module row ->
         r_module row
         ∉ parse_file_imports source g (build_module_registry tree)).
Proof.
  intros Hrows Hrow.
  destruct (analyze_row source tree rows row Hrows Hrow)
    as (_ & _ & _ & _ & Hcount & _).
  rewrite elem_of_dead_rows, Hcount.
  assert (Z.of_nat (size (importing_files source tree (r_module row))) = 0
          <-> importing_files source tree (r_module row) = ∅) as ->.
  { rewrite <- (leibniz_equiv_iff _ ∅), <- size_empty_iff. lia. }
  unfold importing_files. split.
  - intros [_ Hempty] g Hg Hname Hother Hdep.
    apply (not_elem_of_empty (C:=gset string) (relative_str g)).
    rewrite <- Hempty. apply elem_of_list_to_set, list_elem_of_fmap.
    exists g. split; [done|]. by apply list_elem_of_filter.
  - intros Hnone. split; [done|]. apply set_eq. intros r.
    rewrite elem_of_empty, elem_of_list_to_set, list_elem_of_fmap.
    split; [|done]. intros (g & _ & [(? & ? & ?) ?]%list_elem_of_filter).
    by apply (Hnone g).
Qed.

(** In the root package nobody imports [b], so [b] is dead. *)
Lemma dead_means_unimported_witness :
  mkRow "b" "b.py" 0 0 [] 0
  ∈ dead_rows [ mkRow "a" "a.py" 0 1 ["b.py"] 0; mkRow "b" "b.py" 0 0 [] 0 ].
Proof.
  apply (dead_means_unimported Scenario.rooted_source Scenario.rooted_tree
           [ mkRow "a" "a.py" 0 1 ["b.py"] 0; mkRow "b" "b.py" 0 0 [] 0 ]).
  - vm_compute. reflexivity.
  - set_solver.
  - intros g Hg _ _.
    repeat (apply elem_of_cons in Hg as [->|Hg]; [vm_compute; set_solver|]).
    by apply elem_of_nil in Hg.
Defined.

(** ** The hot view, the cold order and the truncation *)

Lemma hot_key_ordered (r1 r2 : Row) :
  Py.ordered_by
    (fun r => (- r_score r, (- r_import_count r, r_module r))) r1 r2 ->
  hot_order r1 r2.
Proof.
  unfold Py.ordered_by, hot_order, Py.less, Py.pair_lt. simpl.
  case_decide as Hs.
  - unfold Py.less, Py.pair_lt. simpl. case_decide as Hc.
    + intros Hm. right. split; [lia|]. right. split; [lia|done].
    + unfold Py.less, Py.int_lt. intros Hlt%Z.ltb_ge.
      right. split; [lia|]. left. lia.
  - unfold Py.less, Py.int_lt. intros Hlt%Z.ltb_ge. left. lia.
Qed.

Lemma cold_key_ordered (r1 r2 : Row) :
  Py.ordered_by
    (fun r => (r_import_count r, (- r_depth r, r_module r))) r1 r2 ->
  cold_order r1 r2.
Proof.
  unfold Py.ordered_by, cold_order, Py.less, Py.pair_lt. simpl.
  case_decide as Hc.
  - unfold Py.less, Py.pair_lt. simpl. case_decide as Hd.
    + intros Hm. right. split; [lia|]. right. split; [lia|done].
    + unfold Py.less, Py.int_lt. intros Hlt%Z.ltb_ge.
      right. split; [lia|]. left. lia.
  - unfold Py.less, Py.int_lt. intros Hlt%Z.ltb_ge. left. lia.
Qed.

Lemma elem_of_hot_rows (min_imports min_depth : Z) (results : list Row)
    (r : Row) :
  r ∈ hot_rows min_imports min_depth results
  <-> r ∈ results /\ min_imports <= r_import_count r
      /\ min_depth <= r_depth r.
Proof.
  unfold hot_rows. rewrite elem_of_sorted_by, list_elem_of_filter. tauto.
Qed.

(** X10: the hot view keeps exactly the rows with at least the minimum
    importer count and depth, sorted by score descending, then importer
    count descending, then module name; in what [cmd_hot] shows a row of
    higher score stands before one of lower score; and when the minimum
    count is at least 1 no row is both hot and dead. *)
Theorem hot_view
    (results : list Row) (min_imports min_depth top : Z) :
  (forall r,
     r ∈ hot_rows min_imports min_depth results
     <-> r ∈ results /\ min_imports <= r_import_count r
         /\ min_depth <= r_depth r)
  /\ StronglySorted hot_order (hot_rows min_imports min_depth results)
  /\ (forall r,
        r ∈ cmd_hot min_imports min_depth top results ->
        r ∈ hot_rows min_imports min_depth results)
  /\ (forall (i j : nat) r1 r2,
        cmd_hot min_imports min_depth top results !! i = Some r1 ->
        cmd_hot min_imports min_depth top results !! j = Some r2 ->
        r_score r2 < r_score r1 -> (i < j)%nat)
  /\ (1 <= min_imports ->
      forall r, ~ (r ∈ hot_rows min_imports min_depth results
                   /\ r ∈ dead_rows results)).
Proof.
  split_and!.
  - apply elem_of_hot_rows.
  - unfold hot_rows.
    eapply StronglySorted_weaken; [apply hot_key_ordered|].
    apply sorted_by_StronglySorted.
  - intros r. unfold cmd_hot.
    destruct (slice_to_is_take (hot_rows min_imports min_depth results) top)
      as [n ->].
    apply subseteq_take.
  - intros i j r1 r2. unfold cmd_hot.
    destruct (slice_to_is_take (hot_rows min_imports min_depth results) top)
      as [n ->].
    intros [Hi _]%lookup_take_Some [Hj _]%lookup_take_Some Hscore.
    unfold hot_rows in Hi, Hj.
    eapply (StronglySorted_ordered_lookup
              (fun r => (- r_score r, (- r_import_count r, r_module r))));
      [|exact Hi|exact Hj|].
    + apply sorted_by_StronglySorted.
    + unfold Py.less, Py.pair_lt. simpl. rewrite decide_False by lia.
      apply Z.ltb_lt. lia.
  - intros Hmin r [Hhot Hdead]. apply elem_of_hot_rows in Hhot.
    apply elem_of_dead_rows in Hdead. lia.
Qed.

(** X11: the cold view is sorted by importer count ascending, then depth
    descending, then module name; in what [cmd_cold] shows a row with
    fewer importers stands before one with more, and of two rows with the
    same count the deeper one comes first. *)
Theorem cold_view_order
    (results : list Row) (max_imports min_depth top : Z) :
  StronglySorted cold_order (cold_rows max_imports min_depth results)
  /\ (forall (i j : nat) r1 r2,
        cmd_cold max_imports min_depth top results !! i = Some r1 ->
        cmd_cold max_imports min_depth top results !! j = Some r2 ->
        r_import_count r1 < r_import_count r2
        \/ (r_import_count r1 = r_import_count r2
            /\ r_depth r2 < r_depth r1) ->
        (i < j)%nat).
Proof.
  split.
  - unfold cold_rows.
    eapply StronglySorted_weaken; [apply cold_key_ordered|].
    apply sorted_by_StronglySorted.
  - intros i j r1 r2. unfold cmd_cold.
    destruct (slice_to_is_take (cold_rows max_imports min_depth results) top)
      as [n ->].
    intros [Hi _]%lookup_take_Some [Hj _]%lookup_take_Some Hkeys.
    unfold cold_rows in Hi, Hj.
    eapply (StronglySorted_ordered_lookup
              (fun r => (r_import_count r, (- r_depth r, r_module r))));
      [|exact Hi|exact Hj|].
    + apply sorted_by_StronglySorted.
    + unfold Py.less, Py.pair_lt. simpl.
      destruct Hkeys as [Hlt|[Heq Hlt]].
      * rewrite decide_False by lia. apply Z.ltb_lt. lia.
      * rewrite decide_True by done. unfold Py.less, Py.pair_lt. simpl.
        rewrite decide_False by lia. apply Z.ltb_lt. lia.
Qed.

Lemma slice_to_truncated {A} (l : list A) (top : Z) :
  truncated_to top l (Py.slice_to l top).
Proof.
  assert (forall n : nat, take n l = take (Nat.min n (length l)) l) as Htake.
  { intros n. destruct (decide (n <= length l)%nat).
    - f_equal. lia.
    - rewrite !take_ge by lia. done. }
  unfold truncated_to, Py.slice_to. destruct (top <? 0).
  - rewrite length_take. split; [apply Htake|lia].
  - rewrite length_take. split; [apply Htake|done].
Qed.

(** X12: what each command shows is its view cut to [--top]: the first
    [top] rows, all rows when there are no more than [top], none for 0,
    and for a negative [top] all but the last [-top] rows. *)
Theorem views_truncated
    (results : list Row) (min_imports max_imports min_depth top : Z) :
  truncated_to top (dead_rows results) (cmd_dead top results)
  /\ truncated_to top (cold_rows max_imports min_depth results)
                   (cmd_cold max_imports min_depth top results)
  /\ truncated_to top (hot_rows min_imports min_depth results)
                   (cmd_hot min_imports min_depth top results)
  /\ cmd_dead 0 results = []
  /\ (Z.of_nat (length (dead_rows results)) <= top ->
      cmd_dead top results = dead_rows results).
Proof.
  split_and!; try apply slice_to_truncated.
  - reflexivity.
  - intros Hall. unfold cmd_dead, Py.slice_to.
    destruct (Z.ltb_spec top 0); [lia|]. apply take_ge. lia.
Qed.

(** ** Module names as segments *)

Lemma stem_of_initializer (stem : string) :
  stem +:+ ".py" = "__init__.py" -> stem = "__init__".
Proof.
  intros Heq%(f_equal (fun s => Py.str_slice_to s (-3))).
  by rewrite str_slice_to_strip_py in Heq.
Qed.

Lemma module_name_segments_of_file (dirs : list string) (stem : string) :
  Forall (fun part => mentions "." part = false) dirs ->
  mentions "." stem = false -> stem <> "__init__" ->
  Py.split "." (file_to_module_name (mkPath dirs (stem +:+ ".py")))
  = dirs ++ [stem].
Proof.
  intros Hdirs Hstem Hinit.
  rewrite module_name_of_file, str_slice_to_strip_py.
  - apply (split_join "."); [by destruct dirs|].
    apply Forall_app. split; [done|]. by constructor.
  - intros Heq. by apply Hinit, stem_of_initializer.
Qed.

Lemma module_name_segments_of_initializer (dirs : list string) :
  dirs <> [] -> Forall (fun part => mentions "." part = false) dirs ->
  Py.split "." (file_to_module_name (mkPath dirs "__init__.py")) = dirs.
Proof.
  intros Hne Hdirs. rewrite module_name_of_initializer.
  by apply (split_join ".").
Qed.

(** X13: for a file whose directories and stem hold no dot, the segments
    of its module name are its directories followed by its stem, one more
    than its depth; for the initializer of a package they are the
    directories alone, as many as its depth. *)
Theorem module_name_segments (dirs : list string) (stem : string) :
  Forall (fun part => mentions "." part = false) dirs ->
  mentions "." stem = false -> stem <> "__init__" ->
  Py.split "." (file_to_module_name (mkPath dirs (stem +:+ ".py")))
  = dirs ++ [stem]
  /\ Z.of_nat (length (Py.split "."
                 (file_to_module_name (mkPath dirs (stem +:+ ".py")))))
     = compute_depth (mkPath dirs (stem +:+ ".py")) + 1
  /\ (dirs <> [] ->
      Py.split "." (file_to_module_name (mkPath dirs "__init__.py")) = dirs
      /\ Z.of_nat (length (Py.split "."
                     (file_to_module_name (mkPath dirs "__init__.py"))))
         = compute_depth (mkPath dirs "__init__.py")).
Proof.
  intros Hdirs Hstem Hinit. split_and!.
  - by apply module_name_segments_of_file.
  - rewrite module_name_segments_of_file by done.
    unfold compute_depth, parts. simpl. rewrite !length_app. simpl. lia.
  - intros Hne. rewrite module_name_segments_of_initializer by done.
    split; [done|]. unfold compute_depth, parts. simpl.
    rewrite length_app. simpl. lia.
Qed.

(** [pkg/sub/mod.py] is [pkg.sub.mod], and [pkg/sub/__init__.py] is
    [pkg.sub]. *)
Lemma module_name_segments_witness :
  Py.split "." (file_to_module_name (mkPath ["pkg"; "sub"] "mod.py"))
  = ["pkg"; "sub"; "mod"]
  /\ Py.split "." (file_to_module_name (mkPath ["pkg"; "sub"] "__init__.py"))
     = ["pkg"; "sub"].
Proof.
  destruct (module_name_segments ["pkg"; "sub"] "mod") as (H1 & _ & H2);
    [repeat constructor|reflexivity|discriminate|].
  split; [exact H1|]. apply H2. discriminate.
Defined.

(** ** Where a relative import is anchored *)

Lemma resolve_from_dot (known_modules : list (string * Path))
    (segments : list string) (last_segment n : string) :
  Forall (fun part => mentions "." part = false)
         (segments ++ [last_segment]) ->
  resolve_relative_import 1 None [n]
    (Py.join "." (segments ++ [last_segment])) known_modules
  = if Py.contains known_modules (Py.join "." (segments ++ [n]))
    then {[ Py.join "." (segments ++ [n]) ]} else ∅.
Proof.
  intros Hfree. unfold resolve_relative_import.
  rewrite (split_join ".") by (done || by destruct segments).
  rewrite length_app. simpl.
  destruct (Z.ltb_spec (Z.of_nat (length segments + 1)) 1); [lia|].
  rewrite slice_to_drop_last. simpl.
  destruct (Py.contains known_modules _); [|done]. set_solver.
Qed.

(** X14: [from . import n] in a module [dirs/stem.py] looks for the
    module [n] beside it, [dirs.n]; in the initializer of the package
    [dirs] it looks for [n] beside the package, one level up, and not
    inside it. *)
Theorem relative_import_anchoring
    (known_modules : list (string * Path)) (ds : list string)
    (d stem n : string) :
  Forall (fun part => mentions "." part = false) (ds ++ [d]) ->
  mentions "." stem = false -> stem <> "__init__" ->
  resolve_relative_import 1 None [n]
    (file_to_module_name (mkPath (ds ++ [d]) (stem +:+ ".py"))) known_modules
  = (if Py.contains known_modules (Py.join "." (ds ++ [d; n]))
     then {[ Py.join "." (ds ++ [d; n]) ]} else ∅)
  /\ resolve_relative_import 1 None [n]
       (file_to_module_name (mkPath (ds ++ [d]) "__init__.py")) known_modules
     = (if Py.contains known_modules (Py.join "." (ds ++ [n]))
        then {[ Py.join "." (ds ++ [n]) ]} else ∅).
Proof.
  intros Hdirs Hstem Hinit. split.
  - rewrite module_name_of_file, str_slice_to_strip_py.
    + rewrite resolve_from_dot.
      * by rewrite <- !app_assoc.
      * apply Forall_app. split; [done|]. by constructor.
    + intros Heq. by apply Hinit, stem_of_initializer.
  - rewrite module_name_of_initializer. by apply resolve_from_dot.
Qed.

(** In [pkg/b.py], [from . import a] finds [pkg.a]; in [pkg/__init__.py]
    it looks for a module [a] in the root and finds none. *)
Lemma relative_import_anchoring_witness :
  resolve_relative_import 1 None ["a"]
    (file_to_module_name (mkPath ["pkg"] "b.py"))
    (build_module_registry Scenario.pkg_tree) = {[ "pkg.a" ]}
  /\ resolve_relative_import 1 None ["a"]
       (file_to_module_name (mkPath ["pkg"] "__init__.py"))
       (build_module_registry Scenario.pkg_tree) = ∅.
Proof.
  apply (relative_import_anchoring (build_module_registry Scenario.pkg_tree)
           [] "pkg" "b" "a").
  - repeat constructor.
  - reflexivity.
  - discriminate.
Defined.

(** ** The printed tables *)

Lemma str_len_app (s t : string) :
  str_len (s +:+ t) = (str_len s + str_len t)%nat.
Proof. induction s as [|a s IH]; simpl; [done|]. rewrite IH. lia. Qed.

Lemma str_len_repeat (c : ascii) (n : nat) :
  is_continuation c = false -> str_len (repeat_char c n) = n.
Proof. intros Hc. induction n as [|n IH]; simpl; [done|]. by rewrite Hc, IH. Qed.

Lemma rjust_width (s : string) (w : nat) :
  (str_len s <= w)%nat -> str_len (rjust s w) = w.
Proof.
  intros Hs. unfold rjust. rewrite str_len_app, str_len_repeat by done. lia.
Qed.

Lemma ljust_width (s : string) (w : nat) :
  (str_len s <= w)%nat -> str_len (ljust s w) = w.
Proof.
  intros Hs. unfold ljust. rewrite str_len_app, str_len_repeat by done. lia.
Qed.

Lemma column_width_label (label : string) (cell : Row -> string)
    (results : list Row) :
  (str_len label <= column_width label cell results)%nat.
Proof. unfold column_width. lia. Qed.

Lemma column_width_cell (label : string) (cell : Row -> string)
    (results : list Row) (r : Row) :
  r ∈ results -> (str_len (cell r) <= column_width label cell results)%nat.
Proof.
  intros Hr. unfold column_width.
  assert (str_len (cell r) <= max_list (str_len ∘ cell <$> results))%nat.
  { apply max_list_elem_of_le, list_elem_of_fmap. by exists r. }
  lia.
Qed.

Ltac table_width :=
  rewrite ?str_len_app;
  rewrite ?rjust_width, ?ljust_width
    by (apply column_width_label
        || (by apply column_width_cell)
        || (by apply (column_width_cell _ (fun r => str_of_int (r_depth r))))
        || (by apply (column_width_cell _ (fun r => str_of_int (r_score r))))
        || (by apply (column_width_cell _
                        (fun r => str_of_int (r_import_count r)))));
  change (str_len "  ") with 2%nat; lia.

(** X15: for no rows [format_dead_results] prints the one line that says
    so; otherwise it prints a header, a line of dashes and one line per
    row in order, all of the same width. *)
Theorem dead_table_aligned (results : list Row) :
  format_dead_results [] = ["No dead modules found."]
  /\ (results <> [] ->
      length (format_dead_results results) = (2 + length results)%nat
      /\ exists w : nat,
           Forall (fun line => str_len line = w) (format_dead_results results)
           /\ format_dead_results results !! 1%nat
              = Some (repeat_char "-" w)).
Proof.
  split; [reflexivity|]. intros Hne.
  destruct results as [|r0 rs]; [done|]. clear Hne.
  unfold format_dead_results. cbv beta iota zeta. set (results := r0 :: rs).
  set (depth_w := column_width "Depth" _ results).
  set (module_w := column_width "Module" _ results).
  set (file_w := column_width "File" _ results).
  cbn [app]. split.
  { cbn [length]. by rewrite length_fmap. }
  exists (depth_w + 2 + module_w + 2 + file_w)%nat.
  assert (str_len (rjust "Depth" depth_w +:+ "  " +:+ ljust "Module" module_w
                   +:+ "  " +:+ ljust "File" file_w)
          = (depth_w + 2 + module_w + 2 + file_w)%nat) as Hheader.
  { subst depth_w module_w file_w. table_width. }
  split.
  - rewrite Hheader. constructor; [done|]. constructor.
    + by apply str_len_repeat.
    + apply Forall_fmap, Forall_forall. intros r Hr. cbn [compose].
      subst depth_w module_w file_w. table_width.
  - cbn [lookup list_lookup]. by rewrite Hheader.
Qed.

Lemma mjoin_rows (row : Row -> string) (extra : Row -> list string)
    (results : list Row) :
  (forall r, r ∈ results -> extra r = []) ->
  mjoin ((fun r => row r :: extra r) <$> results) = row <$> results.
Proof.
  induction results as [|r rs IH]; intros Hextra; [done|].
  rewrite !fmap_cons.
  change (mjoin ((row r :: extra r)
                   :: ((fun r => row r :: extra r) <$> rs)))
    with ((row r :: extra r)
            ++ mjoin ((fun r => row r :: extra r) <$> rs)).
  rewrite (Hextra r) by apply list_elem_of_here. cbn [app]. f_equal.
  apply IH. intros r' Hr'. apply Hextra. by apply elem_of_cons; right.
Qed.

Lemma importer_lines_none (show_importers : bool) (indent : nat)
    (results : list Row) (r : Row) :
  show_importers = false \/ Forall (fun r => r_importers r = []) results ->
  r ∈ results -> importer_lines show_importers indent r = [].
Proof.
  intros [->|Hnone] Hr; unfold importer_lines; [done|].
  rewrite Forall_forall in Hnone. rewrite (Hnone r Hr).
  by rewrite andb_false_r.
Qed.

Lemma length_importer_lines (show_importers : bool) (indent : nat) (r : Row) :
  length (importer_lines show_importers indent r)
  = if show_importers && bool_decide (r_importers r <> [])
    then (length (r_importers r) + 2)%nat else 0%nat.
Proof.
  unfold importer_lines. destruct (_ && _); [|done].
  rewrite !length_app, length_fmap. simpl. lia.
Qed.

Lemma length_blocks (row : Row -> string) (extra : Row -> list string)
    (results : list Row) :
  length (mjoin ((fun r => row r :: extra r) <$> results))
  = (length results + sum_list ((fun r => length (extra r)) <$> results))%nat.
Proof.
  rewrite length_join.
  induction results as [|r rs IH]; [done|].
  rewrite !fmap_cons. cbn [sum_list sum_list_with length].
  rewrite IH. unfold id. lia.
Qed.

(** X16: for no rows the hot and the cold formatter print the one line
    that says so. With the importer lists suppressed, or no row having
    importers, they print a header, a line of dashes and one line per
    row, all of the same width. In every case a row with importers takes,
    when they are shown, one line per importer and two more. *)
Theorem hot_cold_tables_aligned (results : list Row) (show_importers : bool) :
  format_hot_results [] show_importers = ["No modules matched the criteria."]
  /\ format_cold_results [] show_importers
     = ["No modules matched the criteria."]
  /\ (results <> [] ->
      length (format_hot_results results show_importers)
      = length (format_cold_results results show_importers)
      /\ length (format_hot_results results show_importers)
         = (2 + length results
            + sum_list
                ((fun r =>
                    if show_importers && bool_decide (r_importers r <> [])
                    then (length (r_importers r) + 2)%nat else 0%nat)
                   <$> results))%nat)
  /\ (results <> [] ->
      show_importers = false
      \/ Forall (fun r => r_importers r = []) results ->
      (exists w : nat,
         Forall (fun line => str_len line = w)
                (format_hot_results results show_importers)
         /\ format_hot_results results show_importers !! 1%nat
            = Some (repeat_char "-" w))
      /\ (exists w : nat,
            Forall (fun line => str_len line = w)
                   (format_cold_results results show_importers)
            /\ format_cold_results results show_importers !! 1%nat
               = Some (repeat_char "-" w))).
Proof.
  split; [reflexivity|]. split; [reflexivity|]. split.
  - intros Hne. destruct results as [|r0 rs]; [done|]. clear Hne.
    unfold format_hot_results, format_cold_results. cbv beta iota zeta.
    set (results := r0 :: rs). cbn [app length].
    rewrite !length_blocks.
    assert (forall indent,
      (fun r => length (importer_lines show_importers indent r)) <$> results
      = (fun r => if show_importers && bool_decide (r_importers r <> [])
                  then (length (r_importers r) + 2)%nat else 0%nat)
          <$> results) as Hlines.
    { intros indent. apply list_fmap_ext. intros _ r _.
      apply length_importer_lines. }
    rewrite !Hlines. split; [done|lia].
  - intros Hne Hnone. destruct results as [|r0 rs]; [done|]. clear Hne.
    unfold format_hot_results, format_cold_results. cbv beta iota zeta.
    set (results := r0 :: rs) in *.
    set (score_w := column_width "Score" _ results).
    set (depth_w := column_width "Depth" _ results).
    set (imports_w := column_width "Imports" _ results).
    set (module_w := column_width "Module" _ results).
    set (file_w := column_width "File" _ results).
    rewrite !mjoin_rows by (intros r Hr; by eapply importer_lines_none).
    cbn [app]. split.
    + exists (score_w + 2 + depth_w + 2 + imports_w + 2 + module_w + 2
              + file_w)%nat.
      assert (str_len (rjust "Score" score_w +:+ "  "
                       +:+ rjust "Depth" depth_w +:+ "  "
                       +:+ rjust "Imports" imports_w +:+ "  "
                       +:+ ljust "Module" module_w +:+ "  "
                       +:+ ljust "File" file_w)
              = (score_w + 2 + depth_w + 2 + imports_w + 2 + module_w + 2
                 + file_w)%nat) as Hheader.
      { subst score_w depth_w imports_w module_w file_w. table_width. }
      split.
      * rewrite Hheader. constructor; [done|]. constructor.
        -- by apply str_len_repeat.
        -- apply Forall_fmap, Forall_forall. intros r Hr. cbn [compose].
           subst score_w depth_w imports_w module_w file_w. table_width.
      * cbn [lookup list_lookup]. by rewrite Hheader.
    + exists (depth_w + 2 + imports_w + 2 + module_w + 2 + file_w)%nat.
      assert (str_len (rjust "Depth" depth_w +:+ "  "
                       +:+ rjust "Imports" imports_w +:+ "  "
                       +:+ ljust "Module" module_w +:+ "  "
                       +:+ ljust "File" file_w)
              = (depth_w + 2 + imports_w + 2 + module_w + 2 + file_w)%nat)
        as Hheader.
      { subst depth_w imports_w module_w file_w. table_width. }
      split.
      * rewrite Hheader. constructor; [done|]. constructor.
        -- by apply str_len_repeat.
        -- apply Forall_fmap, Forall_forall. intros r Hr. cbn [compose].
           subst depth_w imports_w module_w file_w. table_width.
      * cbn [lookup list_lookup]. by rewrite Hheader.
Qed.
